(** * AgentRunner: the reflection loop of [src/agent/runner.py]

    A shallow embedding of [AgentRunner] (construction, prompt assembly and
    the bounded self-reflection loop) together with the properties its
    specification states about it.

    The two collaborators of the loop, [agent.run] and [compute_metrics],
    live outside [runner.py].  They are taken as parameters: arbitrary
    functions over a hidden state of the outside world, which may return a
    value or raise.  Every call the runner makes is recorded in a trace, so
    that statements about how many calls were made, with which arguments
    and in which order are statements about that trace. *)

From Stdlib Require Import ZArith QArith List Bool Lia.
From Stdlib Require Import Ascii String DecimalString.
Import ListNotations.

Open Scope string_scope.

(** ** Python strings *)

Module PyStr.

(** The character ["\n"]. *)
Definition nl : ascii := ascii_of_nat 10.
Definition NL : string := String nl EmptyString.

(** [str.lower()].  Only the letters A to Z are changed: the test the
    runner makes looks for the ASCII word "ambiguous", and no other
    character lowers to a run of its letters. *)
Definition lower_ascii (c : ascii) : ascii :=
  let n := nat_of_ascii c in
  if (65 <=? n)%nat && (n <=? 90)%nat then ascii_of_nat (n + 32) else c.

Fixpoint lower (s : string) : string :=
  match s with
  | EmptyString => EmptyString
  | String c t => String (lower_ascii c) (lower t)
  end.

(** [needle in hay]. *)
Fixpoint str_in (needle hay : string) : bool :=
  if prefix needle hay then true
  else match hay with
       | EmptyString => false
       | String _ t => str_in needle t
       end.

(** [s or d] for a string [s]: the empty string is falsy. *)
Definition py_or (s d : string) : string :=
  match s with
  | EmptyString => d
  | String _ _ => s
  end.

(** [sep.join(ls)]. *)
Definition join (sep : string) (ls : list string) : string :=
  String.concat sep ls.

(** [str(n)] for an [int], as interpolated by an f-string. *)
Definition str_of_int (n : Z) : string :=
  NilZero.string_of_int (Z.to_int n).

(** [s.split("\n")]: cut at every newline character. *)
Fixpoint split_lines (s : string) : list string :=
  match s with
  | EmptyString => [EmptyString]
  | String c t =>
      if Ascii.eqb c nl then EmptyString :: split_lines t
      else match split_lines t with
           | [] => [String c EmptyString]
           | l :: ls => String c l :: ls
           end
  end.

(** What "contains, as a substring" means. *)
Definition substring (u s : string) : Prop :=
  exists pre post, s = pre ++ u ++ post.

(** What "contains, case-insensitively" means: some substring of [s]
    spells [u] once letters are lowered. *)
Definition substring_ci (u s : string) : Prop :=
  exists pre mid post, s = pre ++ mid ++ post /\ lower mid = lower u.

Fixpoint no_newline (s : string) : bool :=
  match s with
  | EmptyString => true
  | String c t => negb (Ascii.eqb c nl) && no_newline t
  end.

End PyStr.
Import PyStr.

(** ** Values exchanged with the collaborators *)

(** Exceptions: the [ValueError] the constructor raises, and whatever a
    collaborator raises (the runner never looks inside it). *)
Inductive exn : Type :=
| ValueError (msg : string)
| UpstreamError (info : string).

(** How a call ends: it returns a value or it raises. *)
Inductive outcome (A : Type) : Type :=
| Returned (a : A)
| Raised (e : exn).
Arguments Returned {A} a.
Arguments Raised {A} e.

(** A Python number, as far as comparisons can tell numbers apart: an int
    or a finite float is the rational it stands for; a float can also be an
    infinity or not-a-number. *)
Inductive number : Type :=
| NaN
| NegInf
| Finite (q : Q)
| PosInf.

Coercion Finite : Q >-> number.

(** The dictionary [compute_metrics] returns, read at its two keys. *)
Record Metrics : Type := mkMetrics {
  llm_judge_score : number;
  llm_judge_reason : string
}.

(** What [print] writes. *)
Inductive diag : Type :=
| MetricsLine (m : Metrics)      (* f"[metrics] {metrics}" *)
| Line (s : string).

(** One observable action of the runner. *)
Inductive event : Type :=
| AgentRun (prompt : string) (out : outcome string)
| ComputeMetrics (question answer : string) (out : outcome Metrics)
| Print (d : diag)
| BuildAgent.

Definition Qltb (x y : Q) : bool :=
  (Qnum x * QDen y <? Qnum y * QDen x)%Z.

Definition is_nan (x : number) : bool :=
  match x with NaN => true | _ => false end.

(** [x < y] on numbers: false as soon as one side is not-a-number. *)
Definition num_ltb (x y : number) : bool :=
  match x, y with
  | NaN, _ => false
  | _, NaN => false
  | NegInf, NegInf => false
  | NegInf, _ => true
  | Finite _, NegInf => false
  | Finite a, Finite b => Qltb a b
  | Finite _, PosInf => true
  | PosInf, _ => false
  end.

(** [x <= y] on numbers (and [y >= x]): false as soon as one side is
    not-a-number. *)
Definition num_leb (x y : number) : bool :=
  match x, y with
  | NaN, _ => false
  | _, NaN => false
  | NegInf, _ => true
  | Finite _, NegInf => false
  | Finite a, Finite b => Qle_bool a b
  | Finite _, PosInf => true
  | PosInf, PosInf => true
  | PosInf, _ => false
  end.

(** [x == y] on numbers: not-a-number equals nothing. *)
Definition num_eqb (x y : number) : bool :=
  match x, y with
  | NegInf, NegInf => true
  | Finite a, Finite b => Qeq_bool a b
  | PosInf, PosInf => true
  | _, _ => false
  end.

Definition is_agent_run (e : event) : bool :=
  match e with AgentRun _ _ => true | _ => false end.

Definition is_compute_metrics (e : event) : bool :=
  match e with ComputeMetrics _ _ _ => true | _ => false end.

(** Number of generation-agent invocations in a trace. *)
Definition gen_calls (tr : list event) : nat :=
  List.length (filter is_agent_run tr).

(** Number of evaluator invocations in a trace. *)
Definition eval_calls (tr : list event) : nat :=
  List.length (filter is_compute_metrics tr).

(** The generation calls of a trace, oldest first. *)
Fixpoint agent_calls (tr : list event) : list (string * outcome string) :=
  match tr with
  | [] => []
  | AgentRun p o :: tr' => (p, o) :: agent_calls tr'
  | _ :: tr' => agent_calls tr'
  end.

(** The answers the generation calls of a trace returned, oldest first. *)
Fixpoint generated (tr : list event) : list string :=
  match tr with
  | [] => []
  | AgentRun _ (Returned a) :: tr' => a :: generated tr'
  | _ :: tr' => generated tr'
  end.

(** The answers handed to the evaluator, oldest first. *)
Fixpoint evaluated (tr : list event) : list string :=
  match tr with
  | [] => []
  | ComputeMetrics _ a _ :: tr' => a :: evaluated tr'
  | _ :: tr' => evaluated tr'
  end.

(** The verdicts the evaluator returned, oldest first. *)
Fixpoint verdicts (tr : list event) : list Metrics :=
  match tr with
  | [] => []
  | ComputeMetrics _ _ (Returned m) :: tr' => m :: verdicts tr'
  | _ :: tr' => verdicts tr'
  end.

(** No call of the trace raised. *)
Definition call_returned (e : event) : bool :=
  match e with
  | AgentRun _ (Raised _) | ComputeMetrics _ _ (Raised _) => false
  | _ => true
  end.

Definition generation_raised (e : event) : bool :=
  match e with AgentRun _ (Raised _) => true | _ => false end.

(** ** The prompts *)

Definition placeholder : string := "(no prior turns)".


(** The body of the [for] loop of [_format_history]: two appends. *)
Definition append_turn (lines : list string) (turn : string * string)
  : list string :=
  let '(question, answer) := turn in
  let lines := (lines ++ [("User: " ++ question)%string])%list in
  (lines ++ [("Assistant: " ++ answer)%string])%list.

Definition _format_history (history : option (list (string * string)))
  : string :=
  match history with
  | None => placeholder
  | Some [] => placeholder
  | Some h => join NL (fold_left append_turn h [])
  end.

Definition _build_prompt (question : string)
    (history : option (list (string * string))) (limit : Z) : string :=
  let history_text := _format_history history in
  ("Conversation so far:" ++ NL ++ history_text ++ NL ++ NL)
  ++ ("User question: " ++ question ++ NL)
  ++ ("First call `vector_search` with query=the question text and limit="
        ++ str_of_int limit ++ " to fetch context. ")
  ++ "If vector search returns nothing useful, call `web_search` to gather public web snippets. "
  ++ "Then answer concisely using only the retrieved context. "
  ++ "If nothing relevant is returned, say 'I do not know based on the provided context.'".

Definition reflection_head : string :=
  "Review the previous answer carefully: ".

Definition reflection_tail : string :=
  NL
  ++ "Check for factual accuracy, completeness, clarity, and consistency using only retrieved context."
  ++ NL
  ++ "If there are mistakes or missing details, provide a corrected, concise answer."
  ++ NL
  ++ "If nothing relevant is available, say exactly: 'I do not know based on the provided context.'".

(** The f-string [reflection_prompt] of the loop body. *)
Definition reflection_prompt (answer_text : string) : string :=
  reflection_head ++ answer_text ++ reflection_tail.

Definition max_reached_notice : string :=
  "[reflection] Max reflection attempts reached. Returning best-effort answer.".

Definition retry_notice : string :=
  "[reflection] Low confidence or ambiguity detected. Attempting self-correction...".

(** The two tests of the loop body. *)
Definition low_confidence (metrics : Metrics)
    (reflection_threshold : number) : bool :=
  num_ltb (llm_judge_score metrics) reflection_threshold.

Definition ambiguous (metrics : Metrics) : bool :=
  str_in "ambiguous" (lower (llm_judge_reason metrics)).

(** The two lines of a turn, in the words of the specification. *)
Definition turn_lines (turn : string * string) : list string :=
  [("User: " ++ fst turn)%string; ("Assistant: " ++ snd turn)%string].

(** The acceptance condition, in the words of the specification: the score
    reaches the threshold ([score >= reflection_threshold]) and the reason
    does not contain "ambiguous", whatever the case of its letters. *)
Definition acceptance_condition (reflection_threshold : number) (m : Metrics)
  : Prop :=
  num_leb reflection_threshold (llm_judge_score m) = true
  /\ ~ substring_ci "ambiguous" (llm_judge_reason m).

(** What the loop asks of a verdict to stop retrying: the score is not
    below the threshold ([not (score < reflection_threshold)]) and the
    reason does not contain "ambiguous", whatever the case of its
    letters. *)
Definition passes_test (reflection_threshold : number) (m : Metrics)
  : Prop :=
  num_ltb (llm_judge_score m) reflection_threshold = false
  /\ ~ substring_ci "ambiguous" (llm_judge_reason m).

(** Generation calls that raised. *)
Definition failed_gens (tr : list event) : nat :=
  List.length (filter generation_raised tr).


(** ** The runner *)

Section Runner.

(** The hidden state of everything outside the runner, and the dependency
    bundle handed through to the agent. *)
Context {World Deps : Type}.

(** An agent is an object with a [run] method. *)
Record Agent : Type := mkAgent {
  run : string -> Deps -> World -> World * outcome string
}.

(** [compute_metrics(question, answer)], from [metrics.py]. *)
Variable compute_metrics :
  string -> string -> World -> World * outcome Metrics.

(** [build_agent()], from [agent.py]: produces an agent and its
    dependencies. *)
Variable build_agent : World -> World * (Agent * Deps).

(** Computations of the runner: they read and change the world, emit a
    trace, and end by returning, by raising, or (result [None]) by running
    out of the fuel that bounds the [while] loop of the model. *)
Definition M (A : Type) : Type :=
  World -> list event * World * option (outcome A).

Definition ret {A} (a : A) : M A :=
  fun w => ([], w, Some (Returned a)).

Definition raise {A} (e : exn) : M A :=
  fun w => ([], w, Some (Raised e)).

Definition out_of_fuel {A} : M A :=
  fun w => ([], w, None).

Definition bind {A B} (c : M A) (k : A -> M B) : M B :=
  fun w =>
    match c w with
    | (tr, w1, Some (Returned a)) =>
        let '(tr2, w2, r) := k a w1 in ((tr ++ tr2)%list, w2, r)
    | (tr, w1, Some (Raised e)) => (tr, w1, Some (Raised e))
    | (tr, w1, None) => (tr, w1, None)
    end.

Definition print (d : diag) : M unit :=
  fun w => ([Print d], w, Some (Returned tt)).

Definition call_agent (a : Agent) (prompt : string) (d : Deps) : M string :=
  fun w => let '(w1, o) := run a prompt d w in
           ([AgentRun prompt o], w1, Some o).

Definition call_metrics (question answer : string) : M Metrics :=
  fun w => let '(w1, o) := compute_metrics question answer w in
           ([ComputeMetrics question answer o], w1, Some o).

Definition call_build_agent : M (option Agent * option Deps) :=
  fun w => let '(w1, (a, d)) := build_agent w in
           ([BuildAgent], w1, Some (Returned (Some a, Some d))).

Notation "x <- c ;; k" := (bind c (fun x => k))
  (at level 61, c at next level, right associativity).
Notation "c ;;; k" := (bind c (fun _ => k))
  (at level 61, right associativity).

Record AgentRunner : Type := mkRunner {
  agent : Agent;
  deps : Deps
}.

(** [AgentRunner.__init__]. *)
Definition __init__ (agent : option Agent) (deps : option Deps)
  : M AgentRunner :=
  both <- (match agent, deps with
           | None, None => call_build_agent
           | _, _ => ret (agent, deps)
           end) ;;
  match both with
  | (Some a, Some d) => ret (mkRunner a d)
  | _ => raise (ValueError "Both agent and deps must be provided together.")
  end.

Section Reflection.

Variable self : AgentRunner.
Variable question : string.
Variable reflection_threshold : number.
Variable max_reflections : Z.

(** The [while] loop of [_run_agent_with_reflection]; each iteration
    takes one unit of fuel. *)
Fixpoint reflection_loop (fuel : nat) (attempt : Z)
    (answer_text : string) : M string :=
  if (attempt <=? max_reflections)%Z then
    match fuel with
    | O => out_of_fuel
    | S fuel' =>
        metrics <- call_metrics question (py_or answer_text "") ;;
        print (MetricsLine metrics) ;;;
        if negb (low_confidence metrics reflection_threshold)
           && negb (ambiguous metrics)
        then ret answer_text
        else if (attempt =? max_reflections)%Z then
          print (Line max_reached_notice) ;;;
          ret answer_text
        else
          print (Line retry_notice) ;;;
          answer_text' <-
            call_agent (agent self) (reflection_prompt answer_text)
                       (deps self) ;;
          reflection_loop fuel' (attempt + 1)%Z answer_text'
    end
  else ret answer_text.

Definition _run_agent_with_reflection (prompt : string) : M string :=
  let attempt := 0%Z in
  answer_text <- call_agent (agent self) prompt (deps self) ;;
  reflection_loop (Z.to_nat (max_reflections + 1)) attempt answer_text.

End Reflection.

(** [AgentRunner.answer]. *)
Definition answer (self : AgentRunner) (question : string) (limit : Z)
    (conversation_history : option (list (string * string)))
    (reflection_threshold : number) (max_reflections : Z) : M string :=
  let prompt := _build_prompt question conversation_history limit in
  _run_agent_with_reflection self question reflection_threshold
                             max_reflections prompt.

End Runner.

(** The three parts of a finished computation. *)
Definition trace_of {W A} (x : list event * W * option (outcome A))
  : list event := fst (fst x).
Definition result_of {W A} (x : list event * W * option (outcome A))
  : option (outcome A) := snd x.

Arguments Agent : clear implicits.
Arguments AgentRunner : clear implicits.
Arguments M : clear implicits.

(** ** Concrete collaborators

    Scripted agents and judges, to run the model on.  The world counts the
    generation calls made so far. *)

Module Demo.

Definition World : Type := nat.
Definition Deps : Type := unit.

(** An agent whose [n]-th call (from 0) ends as [script n] says. *)
Definition scripted (script : nat -> outcome string) : Agent World Deps :=
  mkAgent (fun _ _ w => (S w, script w)).

(** A judge whose verdict depends on the answer alone. *)
Definition judge (verdict : string -> outcome Metrics)
  : string -> string -> World -> World * outcome Metrics :=
  fun _ answer w => (w, verdict answer).

Definition lyon_then_paris : Agent World Deps :=
  scripted (fun n => match n with
                     | O => Returned "Lyon"
                     | _ => Returned "Paris"
                     end).

Definition likes_paris : string -> outcome Metrics :=
  fun a => if String.eqb a "Paris"
           then Returned (mkMetrics (9 # 10) "complete")
           else Returned (mkMetrics (5 # 10) "incomplete answer").

Definition parrot : Agent World Deps :=
  scripted (fun _ => Returned "Paris").

Definition mute : Agent World Deps :=
  scripted (fun _ => Returned "").

Definition broken : Agent World Deps :=
  scripted (fun _ => Raised (UpstreamError "connection reset")).


Definition never_satisfied : string -> outcome Metrics :=
  fun _ => Returned (mkMetrics (1 # 10) "poor").

Definition always_satisfied : string -> outcome Metrics :=
  fun _ => Returned (mkMetrics (8 # 10) "fine").

(** An agent that answers once and then fails. *)
Definition flaky : Agent World Deps :=
  scripted (fun n => match n with
                     | O => Returned "Lyon"
                     | _ => Raised (UpstreamError "connection reset")
                     end).

(** A judge whose score is not a number. *)
Definition no_score : string -> outcome Metrics :=
  fun _ => Returned (mkMetrics NaN "fine").

(** A judge that praises every answer, in words that hold "ambiguous". *)
Definition praises : string -> outcome Metrics :=
  fun _ => Returned (mkMetrics 1 "Clear and Unambiguous.").

Definition factory : World -> World * (Agent World Deps * Deps) :=
  fun w => (w, (parrot, tt)).

Definition france : string := "What is the capital of France?".

End Demo.

(** ** More readings of a trace *)

(** The event is a call that raised [e]. *)
Definition raised_with (e : exn) (ev : event) : Prop :=
  match ev with
  | AgentRun _ (Raised e') => e' = e
  | ComputeMetrics _ _ (Raised e') => e' = e
  | _ => False
  end.

(** An evaluation, if the event is one, is about [question]. *)
Definition about_question (question : string) (ev : event) : Prop :=
  match ev with
  | ComputeMetrics q _ _ => q = question
  | _ => True
  end.

(** The calls of the trace take turns: a generation call when
    [expect_gen], then an evaluation, then a generation call, and so on. *)
Fixpoint calls_alternate (expect_gen : bool) (tr : list event) : bool :=
  match tr with
  | [] => true
  | AgentRun _ _ :: tr' => expect_gen && calls_alternate false tr'
  | ComputeMetrics _ _ _ :: tr' =>
      negb expect_gen && calls_alternate true tr'
  | _ :: tr' => calls_alternate expect_gen tr'
  end.

(** The verdicts printed on "[metrics]" lines, oldest first. *)
Fixpoint printed_metrics (tr : list event) : list Metrics :=
  match tr with
  | [] => []
  | Print (MetricsLine m) :: tr' => m :: printed_metrics tr'
  | _ :: tr' => printed_metrics tr'
  end.

(** The other lines printed, oldest first. *)
Fixpoint notices (tr : list event) : list string :=
  match tr with
  | [] => []
  | Print (Line s) :: tr' => s :: notices tr'
  | _ :: tr' => notices tr'
  end.

(** No question and no answer of the history holds a newline. *)
Definition newline_free (h : list (string * string)) : bool :=
  forallb (fun t => no_newline (fst t) && no_newline (snd t)) h.

(** * Properties *)

Example str_of_int_5 : str_of_int 5 = "5". Proof. reflexivity. Qed.
Example str_of_int_0 : str_of_int 0 = "0". Proof. reflexivity. Qed.
Example str_of_int_m12 : str_of_int (-12) = "-12". Proof. reflexivity. Qed.
Example lower_ex : lower "Ambiguous Context" = "ambiguous context". Proof. reflexivity. Qed.
Example str_in_ex : str_in "bc" "abcd" = true. Proof. reflexivity. Qed.
Example str_in_ex2 : str_in "bd" "abcd" = false. Proof. reflexivity. Qed.
Example str_in_empty : str_in "" "" = true. Proof. reflexivity. Qed.
Example split_ex : split_lines (join NL ["a"; ""; "bc"]) = ["a"; ""; "bc"]. Proof. reflexivity. Qed.

(** ** Strings *)

Section StringFacts.

Lemma append_nil_r (s : string) : s ++ "" = s.
Proof. induction s as [|c s IH]; simpl; [reflexivity | now rewrite IH]. Qed.

Lemma append_assoc (s t u : string) : (s ++ t) ++ u = s ++ t ++ u.
Proof. induction s as [|c s IH]; simpl; [reflexivity | now rewrite IH]. Qed.

Lemma py_or_empty (s : string) : py_or s "" = s.
Proof. now destruct s. Qed.

Lemma prefix_iff (u s : string) :
  prefix u s = true <-> exists post, s = u ++ post.
Proof.
  revert u; induction s as [|d s IH]; intros [|c u]; simpl.
  - split; [intros _; now exists "" | reflexivity].
  - split; [discriminate | intros [post H]; discriminate].
  - split; [intros _; now exists (String d s) | reflexivity].
  - destruct (ascii_dec c d) as [->|ne].
    + rewrite IH. split; intros [post H]; exists post.
      * now rewrite H.
      * now injection H.
    + split; [discriminate | intros [post H]].
      injection H as H1 _. now elim ne.
Qed.

Lemma str_in_nil (u : string) :
  str_in u "" = if prefix u "" then true else false.
Proof. reflexivity. Qed.

Lemma str_in_cons (u : string) (c : ascii) (s : string) :
  str_in u (String c s)
  = if prefix u (String c s) then true else str_in u s.
Proof. reflexivity. Qed.

Lemma str_in_iff (u s : string) : str_in u s = true <-> substring u s.
Proof.
  unfold substring. induction s as [|c s IH].
  - rewrite str_in_nil. destruct (prefix u "") eqn:P.
    + split; [intros _ | reflexivity].
      apply prefix_iff in P as [post P]. now exists "", post.
    + split; [discriminate | intros (pre & post & H)].
      destruct pre; [|discriminate]. simpl in H.
      assert (prefix u "" = true) by (apply prefix_iff; now exists post).
      congruence.
  - rewrite str_in_cons. destruct (prefix u (String c s)) eqn:P.
    + split; [intros _ | reflexivity].
      apply prefix_iff in P as [post P]. now exists "", post.
    + rewrite IH. split; intros (pre & post & H).
      * exists (String c pre), post. simpl. now rewrite H.
      * destruct pre as [|d pre]; simpl in H.
        -- assert (prefix u (String c s) = true)
             by (apply prefix_iff; now exists post).
           congruence.
        -- injection H as _ H. now exists pre, post.
Qed.


Lemma lower_app (s t : string) : lower (s ++ t) = lower s ++ lower t.
Proof. induction s as [|c s IH]; simpl; [reflexivity | now rewrite IH]. Qed.

(** A split of the lowered text comes from a split of the text. *)
Lemma lower_split (s x y : string) :
  lower s = x ++ y ->
  exists a b, s = a ++ b /\ lower a = x /\ lower b = y.
Proof.
  revert s; induction x as [|c x IH]; intros s H; simpl in H.
  - now exists "", s.
  - destruct s as [|d s]; [discriminate|]. simpl in H.
    injection H as Hc H. apply IH in H as (a & b & -> & Ha & Hb).
    exists (String d a), b. simpl. now rewrite Hc, Ha.
Qed.

(** The test on the reason text is "contains, whatever the case". *)
Lemma lowered_in_iff (u s : string) :
  lower u = u ->
  str_in u (lower s) = true <-> substring_ci u s.
Proof.
  intros Hu. rewrite str_in_iff. unfold substring, substring_ci.
  split.
  - intros (pre & post & H).
    apply lower_split in H as (a & b & -> & Ha & H).
    apply lower_split in H as (m & p & -> & Hm & Hp).
    exists a, m, p. split; [reflexivity | congruence].
  - intros (pre & mid & post & -> & H).
    exists (lower pre), (lower post).
    rewrite !lower_app. congruence.
Qed.

Lemma Qltb_lt (x y : Q) : Qltb x y = true <-> x < y.
Proof. unfold Qltb, Qlt. apply Z.ltb_lt. Qed.

Lemma Qltb_ge (x y : Q) : Qltb x y = false <-> y <= x.
Proof. unfold Qltb, Qle. apply Z.ltb_ge. Qed.

(** A score that reaches the threshold is not below it. *)
Lemma num_leb_not_ltb (t s : number) :
  num_leb t s = true -> num_ltb s t = false.
Proof.
  destruct t as [| |a|], s as [| |b|]; simpl; try congruence.
  intros H. apply Qle_bool_iff in H. now apply Qltb_ge.
Qed.

(** A score that is not below the threshold reaches it, unless one of the
    two is not-a-number. *)
Lemma num_not_ltb_leb (t s : number) :
  is_nan s = false -> is_nan t = false ->
  num_ltb s t = false -> num_leb t s = true.
Proof.
  destruct t as [| |a|], s as [| |b|]; simpl; try congruence.
  intros _ _ H. apply Qle_bool_iff. now apply Qltb_ge.
Qed.

Lemma num_eqb_not_ltb (s t : number) :
  num_eqb s t = true -> num_ltb s t = false.
Proof.
  destruct s as [| |a|], t as [| |b|]; simpl; try congruence.
  intros H. apply Qeq_bool_iff in H. apply Qltb_ge.
  rewrite H. apply Qle_refl.
Qed.

Lemma num_ltb_leb_trans (s t1 t2 : number) :
  num_ltb s t1 = true -> num_leb t1 t2 = true -> num_ltb s t2 = true.
Proof.
  destruct s as [| |a|], t1 as [| |b|], t2 as [| |c|]; simpl;
    try congruence.
  intros H1 H2. apply Qltb_lt in H1. apply Qle_bool_iff in H2.
  apply Qltb_lt. now apply Qlt_le_trans with b.
Qed.

End StringFacts.

(** ** Traces *)

Section TraceFacts.

Lemma eval_calls_evaluated (tr : list event) :
  eval_calls tr = List.length (evaluated tr).
Proof.
  unfold eval_calls.
  induction tr as [|[p o|q a o|d|] tr IH]; simpl; congruence.
Qed.

Lemma gen_calls_agent_calls (tr : list event) :
  gen_calls tr = List.length (agent_calls tr).
Proof.
  unfold gen_calls.
  induction tr as [|[p o|q a o|d|] tr IH]; simpl; congruence.
Qed.

(** A generation call returned an answer or raised. *)
Lemma gen_calls_split (tr : list event) :
  gen_calls tr = (List.length (generated tr) + failed_gens tr)%nat.
Proof.
  unfold gen_calls, failed_gens.
  induction tr as [|[p [a|e]|q a o|d|] tr IH]; simpl; lia.
Qed.

Lemma failed_gens_none (tr : list event) :
  forallb call_returned tr = true -> failed_gens tr = 0%nat.
Proof.
  unfold failed_gens.
  induction tr as [|[p [a|e]|q a [m|e]|d|] tr IH]; simpl;
    try discriminate; auto.
Qed.

(** The last element of a list that has one does not depend on the
    default. *)
Lemma last_cons {A} (x : A) (l : list A) (d : A) :
  last (x :: l) d = last l x.
Proof.
  revert x d; induction l as [|y l IH]; intros x d; [reflexivity|].
  change (last (x :: y :: l) d) with (last (y :: l) d).
  now rewrite !IH.
Qed.

End TraceFacts.

(** ** One iteration of the loop *)

Section LoopFacts.

Context {World Deps : Type}.
Variable compute_metrics :
  string -> string -> World -> World * outcome Metrics.
Variable self : AgentRunner World Deps.
Variable question : string.
Variable reflection_threshold : number.
Variable max_reflections : Z.

Local Abbreviation loop :=
  (reflection_loop compute_metrics self question reflection_threshold
                   max_reflections).

(** Past the bound the loop body is not entered. *)
Lemma loop_exit (fuel : nat) (attempt : Z) (a : string) (w : World) :
  (max_reflections < attempt)%Z ->
  loop fuel attempt a w = ([], w, Some (Returned a)).
Proof.
  intros H. apply Z.leb_gt in H.
  destruct fuel; simpl; now rewrite H.
Qed.

(** What one iteration does, case by case. *)
Lemma loop_step (fuel : nat) (attempt : Z) (a : string) (w : World) :
  (attempt <= max_reflections)%Z ->
  loop (S fuel) attempt a w =
  match compute_metrics question a w with
  | (w1, Raised e) =>
      ([ComputeMetrics question a (Raised e)], w1, Some (Raised e))
  | (w1, Returned m) =>
      let seen :=
        [ComputeMetrics question a (Returned m); Print (MetricsLine m)] in
      if negb (low_confidence m reflection_threshold) && negb (ambiguous m)
      then (seen, w1, Some (Returned a))
      else if (attempt =? max_reflections)%Z
      then ((seen ++ [Print (Line max_reached_notice)])%list, w1,
            Some (Returned a))
      else
        match run (agent self) (reflection_prompt a) (deps self) w1 with
        | (w2, Raised e) =>
            ((seen ++ [Print (Line retry_notice);
                       AgentRun (reflection_prompt a) (Raised e)])%list,
             w2, Some (Raised e))
        | (w2, Returned a') =>
            let '(tr, w3, r) := loop fuel (attempt + 1)%Z a' w2 in
            ((seen ++ Print (Line retry_notice)
                   :: AgentRun (reflection_prompt a) (Returned a')
                   :: tr)%list, w3, r)
        end
  end.
Proof.
  intros H. apply Z.leb_le in H. simpl. rewrite H.
  unfold bind, call_metrics, call_agent, print, ret.
  rewrite py_or_empty.
  destruct (compute_metrics question a w) as [w1 [m|e]]; [|reflexivity].
  cbn [app].
  destruct (negb (low_confidence m reflection_threshold)
            && negb (ambiguous m)); [reflexivity|].
  destruct (attempt =? max_reflections)%Z; [reflexivity|].
  destruct (run (agent self) (reflection_prompt a) (deps self) w1)
    as [w2 [a'|e]]; [|reflexivity].
  destruct (loop fuel (attempt + 1)%Z a' w2) as [[tr w3] r].
  reflexivity.
Qed.

(** The test the loop makes, read as a proposition. *)
Lemma accept_test_iff (m : Metrics) :
  negb (low_confidence m reflection_threshold) && negb (ambiguous m) = true
  <-> passes_test reflection_threshold m.
Proof.
  unfold passes_test, low_confidence, ambiguous.
  rewrite andb_true_iff, !negb_true_iff.
  rewrite <- (lowered_in_iff "ambiguous") by reflexivity.
  now rewrite not_true_iff_false.
Qed.

Lemma accept_test_false (m : Metrics) :
  negb (low_confidence m reflection_threshold) && negb (ambiguous m) = false
  <-> ~ passes_test reflection_threshold m.
Proof. rewrite <- accept_test_iff. now rewrite not_true_iff_false. Qed.

(** Reaching the threshold with a clean reason passes the test. *)
Lemma acceptance_passes (m : Metrics) :
  acceptance_condition reflection_threshold m ->
  passes_test reflection_threshold m.
Proof.
  intros [Hs Hc]. split; [|exact Hc]. now apply num_leb_not_ltb.
Qed.

(** Case analysis on a run of one iteration [E], down to the run [EL] of the
    iterations that follow a retry. *)
Ltac loop_cases E :=
  rewrite loop_step in E by assumption;
  let w1 := fresh "w1" in
  let m := fresh "m" in
  let e := fresh "e" in
  destruct (compute_metrics _ _ _) as [w1 [m|e]];
  [ let Hacc := fresh "Hacc" in
    destruct (negb _ && negb _) eqn:Hacc;
    [ | let Hlast := fresh "Hlast" in
        destruct (_ =? _)%Z eqn:Hlast;
        [ | let w2 := fresh "w2" in
            let a' := fresh "a'" in
            destruct (run _ _ _ _) as [w2 [a'|e]];
            [ let tr0 := fresh "tr0" in
              let w3 := fresh "w3" in
              let r0 := fresh "r0" in
              let EL := fresh "EL" in
              destruct (reflection_loop _ _ _ _ _ _ _ _ _)
                as [[tr0 w3] r0] eqn:EL | ] ] ] | ];
  cbn in E; injection E as <- <- <-.

(** With a unit of fuel per remaining attempt the loop ends by returning or
    by raising: it does not run out of fuel. *)
Lemma loop_total (fuel : nat) :
  forall attempt a w tr w' r,
    (attempt <= max_reflections)%Z ->
    (Z.to_nat (max_reflections - attempt) < fuel)%nat ->
    loop fuel attempt a w = (tr, w', r) ->
    r <> None.
Proof.
  induction fuel as [|fuel IH]; intros attempt a w tr w' r Hle Hf E; [lia|].
  loop_cases E; try discriminate.
  apply Z.eqb_neq in Hlast.
  eapply (IH (attempt + 1)%Z); [| |exact EL]; lia.
Qed.

(** At most one generation call per remaining attempt. *)
Lemma loop_gen_bound (fuel : nat) :
  forall attempt a w tr w' r,
    (attempt <= max_reflections)%Z ->
    loop fuel attempt a w = (tr, w', r) ->
    (gen_calls tr <= Z.to_nat (max_reflections - attempt))%nat.
Proof.
  induction fuel as [|fuel IH]; intros attempt a w tr w' r Hle E.
  - simpl in E. apply Z.leb_le in Hle. rewrite Hle in E.
    injection E as <- <- <-. cbn. lia.
  - loop_cases E; cbn; try lia.
    apply (IH (attempt + 1)%Z) in EL; [|lia].
    fold (gen_calls tr0). lia.
Qed.

(** The answers handed to the evaluator are the answer the loop starts
    from and then each answer a retry returned, in that order. *)
Lemma loop_evaluated (fuel : nat) :
  forall attempt a w tr w' r,
    (attempt <= max_reflections)%Z ->
    (Z.to_nat (max_reflections - attempt) < fuel)%nat ->
    loop fuel attempt a w = (tr, w', r) ->
    evaluated tr = a :: generated tr.
Proof.
  induction fuel as [|fuel IH]; intros attempt a w tr w' r Hle Hf E; [lia|].
  loop_cases E; try reflexivity.
  apply (IH (attempt + 1)%Z) in EL; [|lia|lia].
  cbn. now rewrite EL.
Qed.

(** At most one generation call raises, and then the loop raises. *)
Lemma loop_failed_gens (fuel : nat) :
  forall attempt a w tr w' r,
    (attempt <= max_reflections)%Z ->
    loop fuel attempt a w = (tr, w', r) ->
    (failed_gens tr <= 1)%nat
    /\ (forall x, r = Some (Returned x) -> forallb call_returned tr = true).
Proof.
  induction fuel as [|fuel IH]; intros attempt a w tr w' r Hle E.
  - simpl in E. apply Z.leb_le in Hle. rewrite Hle in E.
    injection E as <- <- <-. split; [cbn; lia | discriminate].
  - loop_cases E; cbn; try (split; [lia | (reflexivity || discriminate)]).
    apply (IH (attempt + 1)%Z) in EL; [|lia].
    exact EL.
Qed.

(** What the loop returns is the last answer generated (the one it started
    from when there was no retry). *)
Lemma loop_result (fuel : nat) :
  forall attempt a w tr w' x,
    loop fuel attempt a w = (tr, w', Some (Returned x)) ->
    x = last (generated tr) a.
Proof.
  induction fuel as [|fuel IH]; intros attempt a w tr w' x E.
  - simpl in E. destruct (attempt <=? max_reflections)%Z;
      [discriminate | now injection E as <- _ <-].
  - destruct (Z.le_gt_cases attempt max_reflections) as [Hle|Hgt].
    + remember (Some (Returned x)) as r eqn:Hr.
      loop_cases E; try (now injection Hr as <-); try discriminate.
      subst r0. apply IH in EL. cbn [app generated].
      now rewrite last_cons.
    + rewrite loop_exit in E by exact Hgt. now injection E as <- _ <-.
Qed.


(** When no call raises and no verdict passes the loop's test, the
    loop uses every remaining attempt and stops on the notice that the
    attempts are used up, right after an evaluation. *)
Lemma loop_exhausted (fuel : nat) :
  forall attempt a w tr w' r,
    (attempt <= max_reflections)%Z ->
    (Z.to_nat (max_reflections - attempt) < fuel)%nat ->
    loop fuel attempt a w = (tr, w', r) ->
    forallb call_returned tr = true ->
    Forall (fun m => ~ passes_test reflection_threshold m)
           (verdicts tr) ->
    gen_calls tr = Z.to_nat (max_reflections - attempt)
    /\ r = Some (Returned (last (generated tr) a))
    /\ exists tr0 m,
         tr = (tr0 ++ [ComputeMetrics question (last (generated tr) a)
                                     (Returned m);
                       Print (MetricsLine m);
                       Print (Line max_reached_notice)])%list.
Proof.
  induction fuel as [|fuel IH];
    intros attempt a w tr w' r Hle Hf E Hret Hbad; [lia|].
  loop_cases E; cbn in Hret, Hbad; try discriminate.
  - apply Forall_inv in Hbad. now apply accept_test_iff in Hacc.
  - apply Z.eqb_eq in Hlast. subst attempt. cbn.
    split; [lia|]. split; [reflexivity|]. now exists [], m.
  - apply Forall_inv_tail in Hbad.
    apply (IH (attempt + 1)%Z) in EL; [|lia|lia|exact Hret|exact Hbad].
    destruct EL as (Hn & Hr & tr1 & m1 & Htr).
    cbn [app generated]. rewrite last_cons.
    split; [|split; [exact Hr|]].
    + unfold gen_calls in *. cbn. lia.
    + exists (ComputeMetrics question a (Returned m)
              :: Print (MetricsLine m) :: Print (Line retry_notice)
              :: AgentRun (reflection_prompt a) (Returned a') :: tr1), m1.
      cbn [app]. now rewrite <- Htr.
Qed.

(** The loop raises only when a collaborator raised. *)
Lemma loop_returns (fuel : nat) :
  forall attempt a w tr w' r,
    (Z.to_nat (max_reflections - attempt) < fuel)%nat ->
    loop fuel attempt a w = (tr, w', r) ->
    forallb call_returned tr = true ->
    exists x, r = Some (Returned x).
Proof.
  induction fuel as [|fuel IH]; intros attempt a w tr w' r Hf E Hret; [lia|].
  destruct (Z.le_gt_cases attempt max_reflections) as [Hle|Hgt].
  - loop_cases E; cbn in Hret; try discriminate; try (now eexists).
    eapply (IH (attempt + 1)%Z); [|exact EL|exact Hret]. lia.
  - rewrite loop_exit in E by exact Hgt. injection E as <- _ <-.
    now eexists.
Qed.

(** The three ways an iteration reacts to a verdict. *)
Lemma loop_accept (fuel : nat) (attempt : Z) (a : string) (w w1 : World)
    (m : Metrics) :
  (attempt <= max_reflections)%Z ->
  compute_metrics question a w = (w1, Returned m) ->
  passes_test reflection_threshold m ->
  loop (S fuel) attempt a w =
  ([ComputeMetrics question a (Returned m); Print (MetricsLine m)],
   w1, Some (Returned a)).
Proof.
  intros Hle Hm Hacc. rewrite loop_step, Hm by exact Hle. cbv zeta.
  apply accept_test_iff in Hacc. now rewrite Hacc.
Qed.

Lemma loop_stop (fuel : nat) (attempt : Z) (a : string) (w w1 : World)
    (m : Metrics) :
  attempt = max_reflections ->
  compute_metrics question a w = (w1, Returned m) ->
  ~ passes_test reflection_threshold m ->
  loop (S fuel) attempt a w =
  ([ComputeMetrics question a (Returned m); Print (MetricsLine m);
    Print (Line max_reached_notice)],
   w1, Some (Returned a)).
Proof.
  intros -> Hm Hacc. rewrite loop_step, Hm by lia. cbv zeta.
  apply accept_test_false in Hacc. now rewrite Hacc, Z.eqb_refl.
Qed.

Lemma loop_retry (fuel : nat) (attempt : Z) (a : string) (w w1 : World)
    (m : Metrics) :
  (attempt < max_reflections)%Z ->
  compute_metrics question a w = (w1, Returned m) ->
  ~ passes_test reflection_threshold m ->
  exists tr',
    trace_of (loop (S fuel) attempt a w) =
    ComputeMetrics question a (Returned m)
    :: Print (MetricsLine m)
    :: Print (Line retry_notice)
    :: AgentRun (reflection_prompt a)
                (snd (run (agent self) (reflection_prompt a) (deps self) w1))
    :: tr'.
Proof.
  intros Hlt Hm Hacc. rewrite loop_step, Hm by lia. cbv zeta.
  apply accept_test_false in Hacc. rewrite Hacc.
  apply Z.lt_neq, Z.eqb_neq in Hlt. rewrite Hlt.
  destruct (run _ _ _ _) as [w2 [a'|e]]; [|now exists []].
  destruct (reflection_loop _ _ _ _ _ _ _ _ _) as [[tr w3] r].
  now exists tr.
Qed.

End LoopFacts.

(** ** The public operation *)

Section AnswerFacts.

Context {World Deps : Type}.
Variable compute_metrics :
  string -> string -> World -> World * outcome Metrics.
Variable self : AgentRunner World Deps.
Variable question : string.
Variable reflection_threshold : number.
Variable max_reflections : Z.

Local Abbreviation loop :=
  (reflection_loop compute_metrics self question reflection_threshold
                   max_reflections).
Local Abbreviation answer_ :=
  (answer compute_metrics self question).

(** [answer] is the first generation call followed by the loop. *)
Lemma answer_unfold (limit : Z) (history : option (list (string * string)))
    (w : World) :
  answer_ limit history reflection_threshold max_reflections w =
  let prompt := _build_prompt question history limit in
  match run (agent self) prompt (deps self) w with
  | (w1, Raised e) => ([AgentRun prompt (Raised e)], w1, Some (Raised e))
  | (w1, Returned a) =>
      let '(tr, w2, r) :=
        loop (Z.to_nat (max_reflections + 1)) 0%Z a w1 in
      (AgentRun prompt (Returned a) :: tr, w2, r)
  end.
Proof.
  unfold answer, _run_agent_with_reflection, bind, call_agent.
  cbv zeta.
  destruct (run _ _ _ _) as [w1 [a|e]]; [|reflexivity].
  now destruct (reflection_loop _ _ _ _ _ _ _ _ _) as [[tr w2] r].
Qed.

(** Case analysis on a call of [answer]: the first generation call raised,
    or it returned and the loop ran ([EL]). *)
Ltac answer_cases :=
  rewrite answer_unfold; cbv zeta;
  let w1 := fresh "w1" in
  let a0 := fresh "a0" in
  let e := fresh "e" in
  destruct (run _ _ _ _) as [w1 [a0|e]];
  [ let tr := fresh "tr" in
    let w2 := fresh "w2" in
    let r := fresh "r" in
    let EL := fresh "EL" in
    destruct (reflection_loop _ _ _ _ _ _ _ _ _) as [[tr w2] r] eqn:EL | ].

(** C1. For every [max_reflections >= 0] and every behaviour of the
    generation agent and of the evaluator (raising included), one call of
    [answer] makes at least 1 and at most [max_reflections + 1] generation
    calls; and the call ends (it returns or raises). *)
Theorem C1_generation_calls_bounded
    (limit : Z) (history : option (list (string * string))) (w : World) :
  (0 <= max_reflections)%Z ->
  (1 <= Z.of_nat (gen_calls (trace_of
         (answer_ limit history reflection_threshold max_reflections w)))
     <= max_reflections + 1)%Z
  /\ result_of (answer_ limit history reflection_threshold
                        max_reflections w) <> None.
Proof.
  intros Hmr. answer_cases; unfold trace_of, result_of; cbn.
  - pose proof (loop_gen_bound _ _ _ _ _ _ _ _ _ _ _ _ Hmr EL) as Hb.
    fold (gen_calls tr). split; [lia|].
    eapply loop_total; [exact Hmr| |exact EL]. lia.
  - split; [lia | discriminate].
Qed.

(** C2. In an iteration whose evaluation returned the verdict [m], the loop
    accepts (it returns the current answer text unchanged, with no notice
    and no further call) if and only if the score is not below the
    threshold and the reason does not contain "ambiguous" in any case of
    its letters.  When neither the score nor the threshold is
    not-a-number, that is: if and only if the score is at least the
    threshold and the reason is clean.  A reason "Ambiguous context" leads
    to a retry as "ambiguous context" does, and a score equal to the
    threshold with a clean reason is accepted. *)
Theorem C2_acceptance_iff
    (fuel : nat) (attempt : Z) (a : string) (w w1 : World) (m : Metrics) :
  (attempt <= max_reflections)%Z ->
  compute_metrics question a w = (w1, Returned m) ->
  (loop (S fuel) attempt a w =
     ([ComputeMetrics question a (Returned m); Print (MetricsLine m)],
      w1, Some (Returned a))
   <-> (num_ltb (llm_judge_score m) reflection_threshold = false
        /\ ~ substring_ci "ambiguous" (llm_judge_reason m)))
  /\ (is_nan (llm_judge_score m) = false ->
      is_nan reflection_threshold = false ->
      (loop (S fuel) attempt a w =
         ([ComputeMetrics question a (Returned m); Print (MetricsLine m)],
          w1, Some (Returned a))
       <-> (num_leb reflection_threshold (llm_judge_score m) = true
            /\ ~ substring_ci "ambiguous" (llm_judge_reason m))))
  /\ (llm_judge_reason m = "Ambiguous context"
        \/ llm_judge_reason m = "ambiguous context" ->
      (attempt < max_reflections)%Z ->
      exists tr',
        trace_of (loop (S fuel) attempt a w) =
        ComputeMetrics question a (Returned m)
        :: Print (MetricsLine m)
        :: Print (Line retry_notice)
        :: AgentRun (reflection_prompt a)
             (snd (run (agent self) (reflection_prompt a) (deps self) w1))
        :: tr')
  /\ (num_eqb (llm_judge_score m) reflection_threshold = true ->
      ~ substring_ci "ambiguous" (llm_judge_reason m) ->
      loop (S fuel) attempt a w =
      ([ComputeMetrics question a (Returned m); Print (MetricsLine m)],
       w1, Some (Returned a))).
Proof.
  intros Hle Hm.
  assert (Hiff : loop (S fuel) attempt a w =
                 ([ComputeMetrics question a (Returned m);
                   Print (MetricsLine m)], w1, Some (Returned a))
                 <-> passes_test reflection_threshold m).
  { split.
    - intros E. apply accept_test_iff.
      rewrite loop_step, Hm in E by exact Hle. cbv zeta in E.
      destruct (negb _ && negb _); [reflexivity|].
      destruct (_ =? _)%Z; [discriminate|].
      destruct (run _ _ _ _) as [w2 [a'|e]]; [|discriminate].
      destruct (reflection_loop _ _ _ _ _ _ _ _ _) as [[tr w3] r].
      discriminate.
    - intros Hacc. now apply loop_accept. }
  split; [exact Hiff|]. split; [|split].
  - intros Hs Ht. rewrite Hiff. unfold passes_test.
    split; intros [H Hclean]; (split; [|exact Hclean]).
    + now apply num_not_ltb_leb.
    + now apply num_leb_not_ltb.
  - intros Hreason Hlt. apply loop_retry; [exact Hlt|exact Hm|].
    intros [_ Hclean]. apply Hclean.
    apply (lowered_in_iff "ambiguous"); [reflexivity|].
    now destruct Hreason as [-> | ->].
  - intros Heq Hclean. apply Hiff. split; [|exact Hclean].
    now apply num_eqb_not_ltb.
Qed.

(** C3. For every [max_reflections >= 0], when the collaborators answer
    every call and no verdict passes the loop's test (each score is below
    the threshold, or its reason contains "ambiguous"), exactly
    [max_reflections + 1] generation calls are made, the call returns (it
    does not raise) the last generated answer as it is, the trace ends with
    the last evaluation and the notice that the attempts are used up, and
    an iteration entered with the attempt counter at [max_reflections]
    makes no generation call. *)
Theorem C3_exhaustion
    (limit : Z) (history : option (list (string * string))) (w : World) :
  (0 <= max_reflections)%Z ->
  forallb call_returned
    (trace_of (answer_ limit history reflection_threshold
                       max_reflections w)) = true ->
  Forall (fun m => ~ passes_test reflection_threshold m)
    (verdicts (trace_of (answer_ limit history reflection_threshold
                                 max_reflections w))) ->
  Z.of_nat (gen_calls (trace_of (answer_ limit history reflection_threshold
                                         max_reflections w)))
  = (max_reflections + 1)%Z
  /\ (exists a_last tr0 m,
        result_of (answer_ limit history reflection_threshold
                           max_reflections w) = Some (Returned a_last)
        /\ last (generated (trace_of (answer_ limit history
                   reflection_threshold max_reflections w))) "" = a_last
        /\ trace_of (answer_ limit history reflection_threshold
                             max_reflections w)
           = (tr0 ++ [ComputeMetrics question a_last (Returned m);
                      Print (MetricsLine m);
                      Print (Line max_reached_notice)])%list)
  /\ (forall fuel a w0,
        gen_calls (trace_of (loop fuel max_reflections a w0)) = 0%nat).
Proof.
  intros Hmr Hret Hbad.
  assert (Hfuel : (Z.to_nat (max_reflections - 0)
                   < Z.to_nat (max_reflections + 1))%nat) by lia.
  split; [|split].
  - revert Hret Hbad. answer_cases; unfold trace_of; cbn; [|discriminate].
    intros Hret Hbad.
    destruct (loop_exhausted _ _ _ _ _ _ _ _ _ _ _ _ Hmr Hfuel EL Hret Hbad)
      as (Hn & _).
    unfold gen_calls in *. lia.
  - revert Hret Hbad.
    answer_cases; unfold trace_of, result_of; cbn [fst snd]; [|discriminate].
    intros Hret Hbad. cbn in Hret, Hbad.
    destruct (loop_exhausted _ _ _ _ _ _ _ _ _ _ _ _ Hmr Hfuel EL Hret Hbad)
      as (_ & Hr & tr0 & m & Htr).
    exists (last (generated tr) a0),
           (AgentRun (_build_prompt question history limit) (Returned a0)
            :: tr0), m.
    split; [exact Hr|]. split.
    + cbn [generated]. apply last_cons.
    + cbn [app]. now rewrite <- Htr.
  - intros fuel a w0.
    destruct (loop fuel max_reflections a w0) as [[tr w'] r] eqn:E.
    pose proof (loop_gen_bound _ _ _ _ _ _ _ _ _ _ _ _
                  (Z.le_refl _) E) as Hb.
    unfold trace_of; cbn [fst]. lia.
Qed.

(** C4. For every [max_reflections >= 0], when the first generated answer
    is judged with a verdict that meets the acceptance condition, there is
    exactly one generation call and exactly one evaluation call, and the
    call returns that first answer as it is. *)
Theorem C4_first_answer_accepted
    (limit : Z) (history : option (list (string * string)))
    (w w1 w2 : World) (a1 : string) (m : Metrics) :
  (0 <= max_reflections)%Z ->
  run (agent self) (_build_prompt question history limit) (deps self) w
  = (w1, Returned a1) ->
  compute_metrics question a1 w1 = (w2, Returned m) ->
  num_leb reflection_threshold (llm_judge_score m) = true ->
  ~ substring_ci "ambiguous" (llm_judge_reason m) ->
  answer_ limit history reflection_threshold max_reflections w
  = ([AgentRun (_build_prompt question history limit) (Returned a1);
      ComputeMetrics question a1 (Returned m);
      Print (MetricsLine m)],
     w2, Some (Returned a1))
  /\ gen_calls (trace_of (answer_ limit history reflection_threshold
                                  max_reflections w)) = 1%nat
  /\ eval_calls (trace_of (answer_ limit history reflection_threshold
                                   max_reflections w)) = 1%nat.
Proof.
  intros Hmr Hrun Hm Hscore Hclean.
  assert (E : answer_ limit history reflection_threshold max_reflections w
              = ([AgentRun (_build_prompt question history limit)
                           (Returned a1);
                  ComputeMetrics question a1 (Returned m);
                  Print (MetricsLine m)],
                 w2, Some (Returned a1))).
  { rewrite answer_unfold. cbv zeta. rewrite Hrun.
    replace (Z.to_nat (max_reflections + 1))
      with (S (Z.to_nat max_reflections)) by lia.
    rewrite (loop_accept _ _ _ _ _ _ _ _ _ w2 m Hmr Hm); [reflexivity|].
    apply acceptance_passes. now split. }
  rewrite E. now repeat split.
Qed.


(** C8. Every call of [answer] makes at least one generation
    call; when [max_reflections >= 0] and that first generation call
    returns an answer, it also makes at least one evaluation call. *)
Theorem C8_one_generation_one_evaluation
    (limit : Z) (history : option (list (string * string))) (w : World) :
  (1 <= gen_calls (trace_of (answer_ limit history reflection_threshold
                                     max_reflections w)))%nat
  /\ ((0 <= max_reflections)%Z ->
      forall w1 a1,
        run (agent self) (_build_prompt question history limit)
            (deps self) w = (w1, Returned a1) ->
        (1 <= eval_calls (trace_of (answer_ limit history
                reflection_threshold max_reflections w)))%nat).
Proof.
  split.
  - answer_cases; unfold trace_of; cbn; lia.
  - intros Hmr w1 a1 Hrun. rewrite answer_unfold. cbv zeta. rewrite Hrun.
    destruct (reflection_loop _ _ _ _ _ _ _ _ _) as [[tr w2] r] eqn:EL.
    apply loop_evaluated in EL; [|exact Hmr|lia].
    unfold trace_of; cbn [fst]. rewrite eval_calls_evaluated.
    cbn [evaluated]. rewrite EL. cbn. lia.
Qed.

(** C9. An empty answer text is evaluated like any other: in an iteration
    entered with the empty text the evaluator is called on the empty
    string; its verdict alone decides between accepting, stopping and
    retrying, as [loop_accept], [loop_stop] and [loop_retry] say for every
    text; the loop raises only if a collaborator does; and when the first
    answer of a call is empty, the call goes on to evaluate it. *)
Theorem C9_empty_answer_is_evaluated
    (fuel : nat) (attempt : Z) (w : World) :
  (attempt <= max_reflections)%Z ->
  hd_error (trace_of (loop (S fuel) attempt "" w))
  = Some (ComputeMetrics question ""
            (snd (compute_metrics question "" w)))
  /\ (forall w1 m,
        compute_metrics question "" w = (w1, Returned m) ->
        (passes_test reflection_threshold m ->
         loop (S fuel) attempt "" w =
         ([ComputeMetrics question "" (Returned m); Print (MetricsLine m)],
          w1, Some (Returned "")))
        /\ (~ passes_test reflection_threshold m ->
            attempt = max_reflections ->
            loop (S fuel) attempt "" w =
            ([ComputeMetrics question "" (Returned m);
              Print (MetricsLine m); Print (Line max_reached_notice)],
             w1, Some (Returned "")))
        /\ (~ passes_test reflection_threshold m ->
            (attempt < max_reflections)%Z ->
            exists tr',
              trace_of (loop (S fuel) attempt "" w) =
              ComputeMetrics question "" (Returned m)
              :: Print (MetricsLine m)
              :: Print (Line retry_notice)
              :: AgentRun (reflection_prompt "")
                   (snd (run (agent self) (reflection_prompt "")
                             (deps self) w1))
              :: tr'))
  /\ ((Z.to_nat (max_reflections - attempt) <= fuel)%nat ->
      forallb call_returned (trace_of (loop (S fuel) attempt "" w)) = true ->
      exists x, result_of (loop (S fuel) attempt "" w) = Some (Returned x))
  /\ (forall limit history w0 w1,
        (0 <= max_reflections)%Z ->
        run (agent self) (_build_prompt question history limit)
            (deps self) w0 = (w1, Returned "") ->
        exists tr,
          trace_of (answer_ limit history reflection_threshold
                            max_reflections w0)
          = AgentRun (_build_prompt question history limit) (Returned "")
            :: ComputeMetrics question ""
                 (snd (compute_metrics question "" w1))
            :: tr).
Proof.
  intros Hle.
  assert (Hhd : forall fuel' attempt' w',
             (attempt' <= max_reflections)%Z ->
             exists tr,
               trace_of (loop (S fuel') attempt' "" w')
               = ComputeMetrics question ""
                   (snd (compute_metrics question "" w')) :: tr).
  { intros fuel' attempt' w' Hle'. rewrite loop_step by exact Hle'.
    destruct (compute_metrics question "" w') as [w1 [m|e]];
      [|now eexists].
    cbv zeta. destruct (negb _ && negb _); [now eexists|].
    destruct (_ =? _)%Z; [now eexists|].
    destruct (run _ _ _ _) as [w2 [a'|e]]; [|now eexists].
    destruct (reflection_loop _ _ _ _ _ _ _ _ _) as [[tr w3] r].
    now eexists. }
  split; [|split; [|split]].
  - destruct (Hhd fuel attempt w Hle) as [tr ->]. reflexivity.
  - intros w1 m Hm. split; [|split].
    + intros Hacc. now apply loop_accept.
    + intros Hacc Hlast. now apply loop_stop.
    + intros Hacc Hlt. now apply loop_retry.
  - intros Hf Hret.
    destruct (loop (S fuel) attempt "" w) as [[tr w'] r] eqn:E.
    eapply loop_returns; [|exact E|exact Hret]. lia.
  - intros limit history w0 w1 Hmr Hrun.
    rewrite answer_unfold. cbv zeta. rewrite Hrun.
    replace (Z.to_nat (max_reflections + 1))
      with (S (Z.to_nat max_reflections)) by lia.
    destruct (Hhd (Z.to_nat max_reflections) 0%Z w1 Hmr) as [tr Htr].
    destruct (reflection_loop _ _ _ _ _ _ _ _ _) as [[tr' w2] r].
    unfold trace_of in *. cbn [fst] in *. subst tr'. now eexists.
Qed.

(** C10. For every [max_reflections >= 0] and every behaviour
    of the collaborators, the answers handed to the evaluator are the
    answers the generation calls returned, each once and in the order they
    were generated.  So the number of evaluator calls is the number of
    generation calls that returned: it equals the number of generation
    calls when none of them raised, and is one less when one did. *)
Theorem C10_evaluated_are_generated
    (limit : Z) (history : option (list (string * string))) (w : World) :
  (0 <= max_reflections)%Z ->
  evaluated (trace_of (answer_ limit history reflection_threshold
                               max_reflections w))
  = generated (trace_of (answer_ limit history reflection_threshold
                                 max_reflections w))
  /\ (failed_gens (trace_of (answer_ limit history reflection_threshold
                                     max_reflections w)) = 0%nat ->
      eval_calls (trace_of (answer_ limit history reflection_threshold
                                    max_reflections w))
      = gen_calls (trace_of (answer_ limit history reflection_threshold
                                     max_reflections w)))
  /\ (failed_gens (trace_of (answer_ limit history reflection_threshold
                                     max_reflections w)) <> 0%nat ->
      gen_calls (trace_of (answer_ limit history reflection_threshold
                                   max_reflections w))
      = S (eval_calls (trace_of (answer_ limit history reflection_threshold
                                         max_reflections w)))).
Proof.
  intros Hmr.
  assert (Hev : evaluated (trace_of (answer_ limit history
                  reflection_threshold max_reflections w))
                = generated (trace_of (answer_ limit history
                  reflection_threshold max_reflections w))).
  { answer_cases; unfold trace_of; cbn; [|reflexivity].
    apply loop_evaluated in EL; [exact EL|exact Hmr|lia]. }
  assert (Hone : (failed_gens (trace_of (answer_ limit history
                    reflection_threshold max_reflections w)) <= 1)%nat).
  { answer_cases; unfold trace_of, failed_gens; cbn; [|lia].
    now apply loop_failed_gens in EL. }
  split; [exact Hev|].
  rewrite eval_calls_evaluated, Hev, gen_calls_split.
  split; intros Hf; lia.
Qed.

End AnswerFacts.

(** ** Construction *)

Section InitFacts.

Context {World Deps : Type}.
Variable build_agent : World -> World * (Agent World Deps * Deps).

(** C5. Constructing the runner with an agent and no dependencies, or with
    dependencies and no agent, raises [ValueError] at once: nothing has been
    called, the factory and the agent included.  With both it succeeds and
    keeps them; with neither it calls the factory and keeps what the
    factory built.  No construction makes a generation call. *)
Theorem C5_constructor_validates
    (a : Agent World Deps) (d : Deps) (w : World) :
  __init__ build_agent (Some a) None w
  = ([], w,
     Some (Raised (ValueError
                     "Both agent and deps must be provided together.")))
  /\ __init__ build_agent None (Some d) w
     = ([], w,
        Some (Raised (ValueError
                        "Both agent and deps must be provided together.")))
  /\ __init__ build_agent (Some a) (Some d) w
     = ([], w, Some (Returned (mkRunner a d)))
  /\ __init__ build_agent None None w
     = ([BuildAgent], fst (build_agent w),
        Some (Returned (mkRunner (fst (snd (build_agent w)))
                                 (snd (snd (build_agent w))))))
  /\ (forall oa od, gen_calls (trace_of (__init__ build_agent oa od w)) = 0%nat).
Proof.
  repeat split; try reflexivity.
  - unfold __init__, bind, call_build_agent.
    now destruct (build_agent w) as [w1 [a' d']].
  - intros [a'|] [d'|]; try reflexivity.
    unfold __init__, bind, call_build_agent.
    now destruct (build_agent w) as [w1 [a' d']].
Qed.

End InitFacts.

(** ** The initial prompt *)

Section PromptFacts.

(** The [for] loop of [_format_history] adds, for each turn in order, its
    two lines after the lines it already has. *)
Lemma fold_append_turn (h : list (string * string)) (acc : list string) :
  fold_left append_turn h acc
  = (acc ++ flat_map turn_lines
                     h)%list.
Proof.
  revert acc; induction h as [|[q a] h IH]; intros acc; simpl.
  - now rewrite app_nil_r.
  - rewrite IH, <- !app_assoc. reflexivity.
Qed.



Lemma split_lines_one (s : string) :
  no_newline s = true -> split_lines s = [s].
Proof.
  induction s as [|c s IH]; [reflexivity|]. simpl.
  destruct (Ascii.eqb c nl); [discriminate|]. simpl.
  intros H. now rewrite (IH H).
Qed.

Lemma split_lines_cut (s t : string) :
  no_newline s = true ->
  split_lines (s ++ NL ++ t) = s :: split_lines t.
Proof.
  induction s as [|c s IH]; intros H; [reflexivity|].
  simpl in H.
  change (split_lines (String c s ++ NL ++ t))
    with (if Ascii.eqb c nl then "" :: split_lines (s ++ NL ++ t)
          else match split_lines (s ++ NL ++ t) with
               | [] => [String c ""]
               | l :: ls => String c l :: ls
               end).
  destruct (Ascii.eqb c nl); [discriminate|].
  now rewrite IH.
Qed.

(** Cutting a joined text at its newlines gives the lines back, when no
    line holds a newline of its own. *)
Lemma split_lines_join (ls : list string) :
  ls <> [] ->
  forallb no_newline ls = true ->
  split_lines (join NL ls) = ls.
Proof.
  induction ls as [|l ls IH]; [congruence|]. intros _ H.
  simpl in H. apply andb_true_iff in H as [Hl Hls].
  destruct ls as [|l' ls].
  - now apply split_lines_one.
  - change (join NL (l :: l' :: ls)) with (l ++ NL ++ join NL (l' :: ls)).
    rewrite split_lines_cut by exact Hl.
    now rewrite IH.
Qed.

Lemma no_newline_app (s t : string) :
  no_newline (s ++ t) = no_newline s && no_newline t.
Proof.
  induction s as [|c s IH]; [reflexivity|]. simpl.
  now rewrite IH, andb_assoc.
Qed.


End PromptFacts.

(** ** The properties at work on concrete collaborators *)

Section Instances.

Import Demo.

Lemma clean_reason (r : string) :
  str_in "ambiguous" (lower r) = false -> ~ substring_ci "ambiguous" r.
Proof.
  intros H C. apply (lowered_in_iff "ambiguous") in C; [congruence|].
  reflexivity.
Qed.

(** The example of the specification: the first answer is judged 0.5,
    "incomplete answer", the second 0.9, "complete"; the second answer is
    returned after two generation calls. *)
Example france_example :
  result_of (answer (judge likes_paris) (mkRunner lyon_then_paris tt)
                    france 5 None (8 # 10) 2 0%nat)
  = Some (Returned "Paris")
  /\ gen_calls (trace_of (answer (judge likes_paris)
                                 (mkRunner lyon_then_paris tt)
                                 france 5 None (8 # 10) 2 0%nat)) = 2%nat.
Proof. split; reflexivity. Qed.

Lemma C1_witness :
  (0 <= 2)%Z
  /\ ((1 <= Z.of_nat (gen_calls (trace_of
            (answer (judge likes_paris) (mkRunner lyon_then_paris tt)
                    france 5 None (8 # 10) 2 0%nat)))
        <= 2 + 1)%Z
      /\ result_of (answer (judge likes_paris)
                           (mkRunner lyon_then_paris tt)
                           france 5 None (8 # 10) 2 0%nat) <> None).
Proof.
  split; [lia|].
  apply (C1_generation_calls_bounded (judge likes_paris)
           (mkRunner lyon_then_paris tt) france (8 # 10) 2 5 None 0%nat).
  lia.
Defined.

Lemma C2_witness :
  reflection_loop (judge always_satisfied) (mkRunner parrot tt) france
                  (8 # 10) 2 3 0 "Paris" 1%nat
  = ([ComputeMetrics france "Paris" (Returned (mkMetrics (8 # 10) "fine"));
      Print (MetricsLine (mkMetrics (8 # 10) "fine"))],
     1%nat, Some (Returned "Paris")).
Proof.
  apply (C2_acceptance_iff (judge always_satisfied) (mkRunner parrot tt)
           france (8 # 10) 2 2 0 "Paris" 1%nat 1%nat
           (mkMetrics (8 # 10) "fine")).
  - lia.
  - reflexivity.
  - reflexivity.
  - apply clean_reason. reflexivity.
Defined.

(** A score that is not a number is never below the threshold: the first
    answer is accepted, with no notice and no retry, although the score
    does not reach the threshold. *)
Lemma C2_counterexample :
  result_of (answer (judge no_score) (mkRunner parrot tt)
                    france 5 None (8 # 10) 2 0%nat)
  = Some (Returned "Paris")
  /\ verdicts (trace_of (answer (judge no_score) (mkRunner parrot tt)
                                france 5 None (8 # 10) 2 0%nat))
     = [mkMetrics NaN "fine"]
  /\ gen_calls (trace_of (answer (judge no_score) (mkRunner parrot tt)
                                 france 5 None (8 # 10) 2 0%nat)) = 1%nat
  /\ notices (trace_of (answer (judge no_score) (mkRunner parrot tt)
                               france 5 None (8 # 10) 2 0%nat)) = []
  /\ num_leb (8 # 10) (llm_judge_score (mkMetrics NaN "fine")) = false.
Proof. repeat split; reflexivity. Qed.

(** Every verdict fails the acceptance condition, and yet there are fewer
    than [2 + 1] generation calls: when the retry raises, the call raises
    after two of them; when the score is not a number, the first answer is
    returned after one. *)
Lemma C3_counterexample :
  (Forall (fun m => ~ acceptance_condition (8 # 10) m)
          (verdicts (trace_of (answer (judge never_satisfied)
                                      (mkRunner flaky tt)
                                      france 5 None (8 # 10) 2 0%nat)))
   /\ gen_calls (trace_of (answer (judge never_satisfied)
                                  (mkRunner flaky tt)
                                  france 5 None (8 # 10) 2 0%nat)) = 2%nat
   /\ result_of (answer (judge never_satisfied) (mkRunner flaky tt)
                        france 5 None (8 # 10) 2 0%nat)
      = Some (Raised (UpstreamError "connection reset")))
  /\ (Forall (fun m => ~ acceptance_condition (8 # 10) m)
             (verdicts (trace_of (answer (judge no_score)
                                         (mkRunner parrot tt)
                                         france 5 None (8 # 10) 2 0%nat)))
      /\ gen_calls (trace_of (answer (judge no_score) (mkRunner parrot tt)
                                     france 5 None (8 # 10) 2 0%nat))
         = 1%nat
      /\ result_of (answer (judge no_score) (mkRunner parrot tt)
                           france 5 None (8 # 10) 2 0%nat)
         = Some (Returned "Paris")).
Proof.
  split; (split; [|split; reflexivity]);
    repeat constructor; intros [H _]; vm_compute in H; discriminate H.
Qed.

Lemma C3_witness :
  Z.of_nat (gen_calls (trace_of
     (answer (judge never_satisfied) (mkRunner lyon_then_paris tt)
             france 5 None (8 # 10) 1 0%nat))) = (1 + 1)%Z
  /\ result_of (answer (judge never_satisfied)
                       (mkRunner lyon_then_paris tt)
                       france 5 None (8 # 10) 1 0%nat)
     = Some (Returned "Paris").
Proof.
  destruct (C3_exhaustion (judge never_satisfied)
              (mkRunner lyon_then_paris tt) france (8 # 10) 1 5 None 0%nat)
    as (Hn & _ & _).
  - lia.
  - reflexivity.
  - repeat constructor; intros [H _]; vm_compute in H; discriminate H.
  - split; [exact Hn | reflexivity].
Defined.

Lemma C4_witness :
  gen_calls (trace_of (answer (judge always_satisfied) (mkRunner parrot tt)
                              france 5 None (8 # 10) 2 0%nat)) = 1%nat
  /\ eval_calls (trace_of (answer (judge always_satisfied)
                                  (mkRunner parrot tt)
                                  france 5 None (8 # 10) 2 0%nat)) = 1%nat.
Proof.
  apply (C4_first_answer_accepted (judge always_satisfied)
           (mkRunner parrot tt) france (8 # 10) 2 5 None
           0%nat 1%nat 1%nat "Paris" (mkMetrics (8 # 10) "fine")).
  - lia.
  - reflexivity.
  - reflexivity.
  - reflexivity.
  - apply clean_reason. reflexivity.
Defined.



(** With [max_reflections = -1] the loop body is never entered, and when the
    first generation call raises the loop is never reached: no evaluation
    call in either case. *)
Lemma C8_counterexample :
  ~ (1 <= eval_calls (trace_of
        (answer (judge always_satisfied) (mkRunner parrot tt)
                france 5 None (8 # 10) (-1) 0%nat)))%nat
  /\ ~ (1 <= eval_calls (trace_of
           (answer (judge always_satisfied) (mkRunner broken tt)
                   france 5 None (8 # 10) 2 0%nat)))%nat.
Proof. split; vm_compute; lia. Qed.

Lemma C8_witness :
  (1 <= gen_calls (trace_of
      (answer (judge likes_paris) (mkRunner lyon_then_paris tt)
              france 5 None (8 # 10) 2 0%nat)))%nat
  /\ (1 <= eval_calls (trace_of
         (answer (judge likes_paris) (mkRunner lyon_then_paris tt)
                 france 5 None (8 # 10) 2 0%nat)))%nat.
Proof.
  destruct (C8_one_generation_one_evaluation (judge likes_paris)
              (mkRunner lyon_then_paris tt) france (8 # 10) 2 5 None 0%nat)
    as [Hg He].
  split; [exact Hg|].
  apply (He ltac:(lia) 1%nat "Lyon"). reflexivity.
Defined.

Lemma C9_witness :
  hd_error (trace_of (reflection_loop (judge never_satisfied)
                        (mkRunner mute tt) france (8 # 10) 2 3 0 "" 1%nat))
  = Some (ComputeMetrics france "" (Returned (mkMetrics (1 # 10) "poor")))
  /\ exists x,
       result_of (reflection_loop (judge never_satisfied)
                    (mkRunner mute tt) france (8 # 10) 2 3 0 "" 1%nat)
       = Some (Returned x).
Proof.
  destruct (C9_empty_answer_is_evaluated (judge never_satisfied)
              (mkRunner mute tt) france (8 # 10) 2 2 0 1%nat)
    as (Hhd & _ & Hret & _).
  - lia.
  - split; [exact Hhd|]. apply Hret; [vm_compute; lia | reflexivity].
Defined.

(** A generation call that raises is a generation call, and nothing is
    evaluated after it. *)
Lemma C10_counterexample :
  gen_calls (trace_of (answer (judge always_satisfied) (mkRunner broken tt)
                              france 5 None (8 # 10) 2 0%nat)) = 1%nat
  /\ eval_calls (trace_of (answer (judge always_satisfied)
                                  (mkRunner broken tt)
                                  france 5 None (8 # 10) 2 0%nat)) = 0%nat.
Proof. split; reflexivity. Qed.

Lemma C10_witness :
  evaluated (trace_of (answer (judge likes_paris)
                              (mkRunner lyon_then_paris tt)
                              france 5 None (8 # 10) 2 0%nat))
  = ["Lyon"; "Paris"]
  /\ eval_calls (trace_of (answer (judge likes_paris)
                                  (mkRunner lyon_then_paris tt)
                                  france 5 None (8 # 10) 2 0%nat))
     = gen_calls (trace_of (answer (judge likes_paris)
                                   (mkRunner lyon_then_paris tt)
                                   france 5 None (8 # 10) 2 0%nat)).
Proof.
  destruct (C10_evaluated_are_generated (judge likes_paris)
              (mkRunner lyon_then_paris tt) france (8 # 10) 2 5 None 0%nat)
    as (Hev & Heq & _).
  - lia.
  - split; [rewrite Hev; reflexivity | apply Heq; reflexivity].
Defined.

End Instances.

(** * Further properties of the loop *)

Section LoopMore.

Context {World Deps : Type}.
Variable compute_metrics :
  string -> string -> World -> World * outcome Metrics.
Variable self : AgentRunner World Deps.
Variable question : string.
Variable reflection_threshold : number.
Variable max_reflections : Z.

Local Abbreviation loop :=
  (reflection_loop compute_metrics self question reflection_threshold
                   max_reflections).

(** The cases of one iteration, as in the section on single iterations. *)
Ltac iter_cases E :=
  rewrite loop_step in E by assumption;
  let w1 := fresh "w1" in
  let m := fresh "m" in
  let e := fresh "e" in
  destruct (compute_metrics _ _ _) as [w1 [m|e]];
  [ let Hacc := fresh "Hacc" in
    destruct (negb _ && negb _) eqn:Hacc;
    [ | let Hlast := fresh "Hlast" in
        destruct (_ =? _)%Z eqn:Hlast;
        [ | let w2 := fresh "w2" in
            let a' := fresh "a'" in
            destruct (run _ _ _ _) as [w2 [a'|e]];
            [ let tr0 := fresh "tr0" in
              let w3 := fresh "w3" in
              let r0 := fresh "r0" in
              let EL := fresh "EL" in
              destruct (reflection_loop _ _ _ _ _ _ _ _ _)
                as [[tr0 w3] r0] eqn:EL | ] ] ] | ];
  cbn in E; injection E as <- <- <-.

(** Without fuel the loop has done nothing yet. *)
Lemma loop_no_fuel (attempt : Z) (a : string) (w : World) :
  trace_of (loop 0 attempt a w) = [].
Proof. simpl. now destruct (attempt <=? max_reflections)%Z. Qed.

(** When the loop raises, the last event is the call that raised, and
    every call before it returned. *)
Lemma loop_raise_last (fuel : nat) :
  forall attempt a w tr w' r e,
    loop fuel attempt a w = (tr, w', r) ->
    r = Some (Raised e) ->
    exists tr0 ev,
      tr = (tr0 ++ [ev])%list /\ raised_with e ev
      /\ forallb call_returned tr0 = true.
Proof.
  induction fuel as [|fuel IH]; intros attempt a w tr w' r e E Hr.
  - simpl in E. destruct (attempt <=? max_reflections)%Z;
      injection E as <- <- <-; discriminate.
  - destruct (Z.le_gt_cases attempt max_reflections) as [Hle|Hgt].
    + iter_cases E; try discriminate.
      * destruct (IH _ _ _ _ _ _ _ EL Hr) as (t0 & ev & -> & Hev & Ht0).
        exists (ComputeMetrics question a (Returned m)
                :: Print (MetricsLine m) :: Print (Line retry_notice)
                :: AgentRun (reflection_prompt a) (Returned a') :: t0), ev.
        now repeat split.
      * injection Hr as ->.
        exists [ComputeMetrics question a (Returned m);
                Print (MetricsLine m); Print (Line retry_notice)],
               (AgentRun (reflection_prompt a) (Raised e)).
        now repeat split.
      * injection Hr as ->.
        exists [], (ComputeMetrics question a (Raised e)).
        now repeat split.
    + rewrite loop_exit in E by exact Hgt. injection E as <- <- <-.
      discriminate.
Qed.

(** Every evaluation is about the question the loop was given. *)
Lemma loop_about_question (fuel : nat) :
  forall attempt a w tr w' r,
    loop fuel attempt a w = (tr, w', r) ->
    Forall (about_question question) tr.
Proof.
  induction fuel as [|fuel IH]; intros attempt a w tr w' r E.
  - simpl in E. destruct (attempt <=? max_reflections)%Z;
      injection E as <- <- <-; constructor.
  - destruct (Z.le_gt_cases attempt max_reflections) as [Hle|Hgt].
    + iter_cases E; repeat (constructor; try exact I; try reflexivity).
      now apply IH in EL.
    + rewrite loop_exit in E by exact Hgt. injection E as <- <- <-.
      constructor.
Qed.

(** Inside the loop the calls take turns, an evaluation first. *)
Lemma loop_alternates (fuel : nat) :
  forall attempt a w tr w' r,
    loop fuel attempt a w = (tr, w', r) ->
    calls_alternate false tr = true.
Proof.
  induction fuel as [|fuel IH]; intros attempt a w tr w' r E.
  - simpl in E. destruct (attempt <=? max_reflections)%Z;
      now injection E as <- <- <-.
  - destruct (Z.le_gt_cases attempt max_reflections) as [Hle|Hgt].
    + iter_cases E; try reflexivity.
      cbn. now apply IH in EL.
    + rewrite loop_exit in E by exact Hgt. now injection E as <- <- <-.
Qed.

(** Each verdict is printed once, and each retry announced once; the
    notice that the attempts are used up comes at most once, last. *)
Lemma loop_diagnostics (fuel : nat) :
  forall attempt a w tr w' r,
    loop fuel attempt a w = (tr, w', r) ->
    printed_metrics tr = verdicts tr
    /\ exists tail,
         notices tr = (repeat retry_notice (gen_calls tr) ++ tail)%list
         /\ (tail = [] \/ tail = [max_reached_notice]).
Proof.
  induction fuel as [|fuel IH]; intros attempt a w tr w' r E.
  - simpl in E. destruct (attempt <=? max_reflections)%Z;
      injection E as <- <- <-; (split; [reflexivity|]);
      exists []; now split; [|left].
  - destruct (Z.le_gt_cases attempt max_reflections) as [Hle|Hgt].
    + iter_cases E.
      * split; [reflexivity|]. exists []. split; [reflexivity|now left].
      * split; [reflexivity|]. exists [max_reached_notice].
        split; [reflexivity|now right].
      * apply IH in EL as (Hp & tail & Hn & Ht).
        split; [cbn; now rewrite Hp|].
        exists tail. split; [|exact Ht].
        cbn. fold (gen_calls tr0). now rewrite Hn.
      * split; [reflexivity|]. exists []. split; [reflexivity|now left].
      * split; [reflexivity|]. exists []. split; [reflexivity|now left].
    + rewrite loop_exit in E by exact Hgt. injection E as <- <- <-.
      split; [reflexivity|]. exists []. split; [reflexivity|now left].
Qed.

(** When the loop returns, every verdict but the last fails the loop's
    test and led to a retry; the last one passes it, unless the attempts
    are used up. *)
Lemma loop_verdicts (fuel : nat) :
  forall attempt a w tr w' x,
    (attempt <= max_reflections)%Z ->
    (Z.to_nat (max_reflections - attempt) < fuel)%nat ->
    loop fuel attempt a w = (tr, w', Some (Returned x)) ->
    exists ms m,
      verdicts tr = (ms ++ [m])%list
      /\ Forall (fun m' => ~ passes_test reflection_threshold m') ms
      /\ gen_calls tr = List.length ms
      /\ (passes_test reflection_threshold m
          \/ gen_calls tr = Z.to_nat (max_reflections - attempt)).
Proof.
  induction fuel as [|fuel IH]; intros attempt a w tr w' x Hle Hf E; [lia|].
  remember (Some (Returned x)) as r eqn:Hr.
  iter_cases E; try discriminate.
  - exists [], m. repeat split; [constructor|].
    left. now apply accept_test_iff.
  - exists [], m. repeat split; [constructor|].
    right. cbn. apply Z.eqb_eq in Hlast. lia.
  - subst r0. apply Z.eqb_neq in Hlast.
    apply (IH (attempt + 1)%Z) in EL as (ms & m' & Hv & Hms & Hg & Hend);
      [|lia|lia].
    exists (m :: ms), m'. cbn. fold (gen_calls tr0).
    rewrite Hv, Hg. repeat split.
    + constructor; [now apply accept_test_false|exact Hms].
    + destruct Hend as [Hacc'|Hex]; [now left|right]. lia.
Qed.

End LoopMore.

(** * Changing the threshold or the budget *)

Section Compare.

Context {World Deps : Type}.
Variable compute_metrics :
  string -> string -> World -> World * outcome Metrics.
Variable self : AgentRunner World Deps.
Variable question : string.

Local Abbreviation loop := (reflection_loop compute_metrics self question).
Local Abbreviation answer_ := (answer compute_metrics self question).

(** A verdict that passes the test at a threshold passes it at every
    lower one. *)
Lemma accept_test_mono (thr1 thr2 : number) (m : Metrics) :
  num_leb thr1 thr2 = true ->
  negb (low_confidence m thr2) && negb (ambiguous m) = true ->
  negb (low_confidence m thr1) && negb (ambiguous m) = true.
Proof.
  intros Hthr H. apply accept_test_iff in H as [Hs Hc].
  apply accept_test_iff. split; [|exact Hc].
  destruct (num_ltb (llm_judge_score m) thr1) eqn:H1; [|reflexivity].
  rewrite (num_ltb_leb_trans _ _ _ H1 Hthr) in Hs. discriminate.
Qed.

(** With a lower threshold the loop makes no more generation calls. *)
Lemma loop_threshold_mono (thr1 thr2 : number) (max_reflections : Z)
    (fuel : nat) :
  num_leb thr1 thr2 = true ->
  forall attempt a w,
    (gen_calls (trace_of (loop thr1 max_reflections fuel attempt a w))
     <= gen_calls (trace_of (loop thr2 max_reflections fuel attempt a w)))%nat.
Proof.
  intros Hthr. induction fuel as [|fuel IH]; intros attempt a w.
  - rewrite !loop_no_fuel. cbn. lia.
  - destruct (Z.le_gt_cases attempt max_reflections) as [Hle|Hgt].
    + rewrite !loop_step by exact Hle.
      destruct (compute_metrics question a w) as [w1 [m|e]];
        [|cbn; lia]. cbv zeta.
      destruct (negb (low_confidence m thr1) && negb (ambiguous m))
        eqn:H1; [cbn; lia|].
      destruct (negb (low_confidence m thr2) && negb (ambiguous m))
        eqn:H2.
      { apply (accept_test_mono thr1 thr2 m Hthr) in H2. congruence. }
      destruct (attempt =? max_reflections)%Z; [cbn; lia|].
      destruct (run _ _ _ _) as [w2 [a'|e]]; [|cbn; lia].
      specialize (IH (attempt + 1)%Z a' w2).
      destruct (loop thr1 _ fuel _ _ _) as [[tr1 w3] r1].
      destruct (loop thr2 _ fuel _ _ _) as [[tr2 w4] r2].
      unfold trace_of, gen_calls in *. cbn in *. lia.
    + rewrite !loop_exit by exact Hgt. cbn. lia.
Qed.

(** With a smaller budget the loop makes no more generation calls. *)
Lemma loop_budget_mono (thr : number) (mr1 mr2 : Z) (fuel1 : nat) :
  (mr1 <= mr2)%Z ->
  forall fuel2 attempt a w,
    (Z.to_nat (mr2 - attempt) < fuel2)%nat ->
    (gen_calls (trace_of (loop thr mr1 fuel1 attempt a w))
     <= gen_calls (trace_of (loop thr mr2 fuel2 attempt a w)))%nat.
Proof.
  intros Hmr. induction fuel1 as [|fuel1 IH];
    intros fuel2 attempt a w Hf.
  - rewrite loop_no_fuel. cbn. lia.
  - destruct (Z.le_gt_cases attempt mr1) as [Hle|Hgt].
    + destruct fuel2 as [|fuel2]; [lia|].
      rewrite !loop_step by lia.
      destruct (compute_metrics question a w) as [w1 [m|e]];
        [|cbn; lia]. cbv zeta.
      destruct (negb _ && negb _); [cbn; lia|].
      destruct (attempt =? mr1)%Z eqn:H1; [cbn; lia|].
      apply Z.eqb_neq in H1.
      assert (H2 : (attempt =? mr2)%Z = false) by (apply Z.eqb_neq; lia).
      rewrite H2.
      destruct (run _ _ _ _) as [w2 [a'|e]]; [|cbn; lia].
      specialize (IH fuel2 (attempt + 1)%Z a' w2 ltac:(lia)).
      destruct (loop thr mr1 fuel1 _ _ _) as [[tr1 w3] r1].
      destruct (loop thr mr2 fuel2 _ _ _) as [[tr2 w4] r2].
      unfold trace_of, gen_calls in *. cbn in *. lia.
    + rewrite loop_exit by exact Hgt. cbn. lia.
Qed.

(** A run that did not end on the notice that the attempts are used up is
    the same run under every larger budget. *)
Lemma loop_budget_stable (thr : number) (mr1 mr2 : Z) (fuel1 : nat) :
  (mr1 <= mr2)%Z ->
  forall fuel2 attempt a w,
    (attempt <= mr1)%Z ->
    (Z.to_nat (mr1 - attempt) < fuel1)%nat ->
    (Z.to_nat (mr2 - attempt) < fuel2)%nat ->
    ~ In max_reached_notice
         (notices (trace_of (loop thr mr1 fuel1 attempt a w))) ->
    loop thr mr1 fuel1 attempt a w = loop thr mr2 fuel2 attempt a w.
Proof.
  intros Hmr. induction fuel1 as [|fuel1 IH];
    intros fuel2 attempt a w Hle Hf1 Hf2 Hno; [lia|].
  destruct fuel2 as [|fuel2]; [lia|].
  rewrite !loop_step by lia. rewrite loop_step in Hno by lia.
  destruct (compute_metrics question a w) as [w1 [m|e]]; [|reflexivity].
  cbv zeta in *.
  destruct (negb _ && negb _); [reflexivity|].
  destruct (attempt =? mr1)%Z eqn:H1.
  { exfalso. apply Hno. cbn. now left. }
  apply Z.eqb_neq in H1.
  assert (H2 : (attempt =? mr2)%Z = false) by (apply Z.eqb_neq; lia).
  rewrite H2.
  destruct (run _ _ _ _) as [w2 [a'|e]]; [|reflexivity].
  rewrite <- (IH fuel2 (attempt + 1)%Z a' w2); try lia.
  - now destruct (loop thr mr1 fuel1 _ _ _) as [[tr1 w3] r1].
  - intros Hin. apply Hno.
    destruct (loop thr mr1 fuel1 _ _ _) as [[tr1 w3] r1].
    cbn. now right.
Qed.

End Compare.

(** * Further properties of the public operation *)

Section AnswerMore.

Context {World Deps : Type}.
Variable compute_metrics :
  string -> string -> World -> World * outcome Metrics.
Variable self : AgentRunner World Deps.
Variable question : string.

Local Abbreviation loop := (reflection_loop compute_metrics self question).
Local Abbreviation answer_ := (answer compute_metrics self question).

(** The two ways a call of [answer] starts. *)
Ltac start_cases :=
  rewrite answer_unfold; cbv zeta;
  let w1 := fresh "w1" in
  let a0 := fresh "a0" in
  let e := fresh "e" in
  destruct (run _ _ _ _) as [w1 [a0|e]];
  [ let tr := fresh "tr" in
    let w2 := fresh "w2" in
    let r := fresh "r" in
    let EL := fresh "EL" in
    destruct (reflection_loop _ _ _ _ _ _ _ _ _) as [[tr w2] r] eqn:EL | ].

Lemma last_in {A} (l : list A) (d : A) : l <> [] -> In (last l d) l.
Proof.
  induction l as [|x l IH]; [congruence|]. intros _.
  destruct l as [|y l]; [now left|].
  right. apply IH. discriminate.
Qed.

(** X1. With a negative [max_reflections] the loop body is never entered:
    [answer] makes its one generation call and hands back what that call
    gave, answer or exception, and nothing is evaluated or printed. *)
Theorem X1_negative_budget_skips_evaluation
    (thr : number) (mr limit : Z) (history : option (list (string * string)))
    (w : World) :
  (mr < 0)%Z ->
  answer_ limit history thr mr w
  = ([AgentRun (_build_prompt question history limit)
        (snd (run (agent self) (_build_prompt question history limit)
                  (deps self) w))],
     fst (run (agent self) (_build_prompt question history limit)
              (deps self) w),
     Some (snd (run (agent self) (_build_prompt question history limit)
                    (deps self) w))).
Proof.
  intros Hmr. rewrite answer_unfold. cbv zeta.
  destruct (run _ _ _ _) as [w1 [a0|e]]; [|reflexivity].
  now rewrite loop_exit by lia.
Qed.

(** X2. Failures of the collaborators pass through unchanged and end the
    call: when [answer] raises [e], the last thing it did is the call that
    raised [e], and every call before it returned; and when every call
    returned, [answer] returns. *)
Theorem X2_failure_ends_the_call
    (thr : number) (mr limit : Z) (history : option (list (string * string)))
    (w : World) :
  (forall e,
      result_of (answer_ limit history thr mr w) = Some (Raised e) ->
      exists tr0 ev,
        trace_of (answer_ limit history thr mr w) = (tr0 ++ [ev])%list
        /\ raised_with e ev
        /\ forallb call_returned tr0 = true)
  /\ (forallb call_returned (trace_of (answer_ limit history thr mr w))
      = true ->
      exists x, result_of (answer_ limit history thr mr w)
                = Some (Returned x)).
Proof.
  split.
  - intros e. start_cases; unfold trace_of, result_of; cbn [fst snd].
    + intros Hr.
      destruct (loop_raise_last _ _ _ _ _ _ _ _ _ _ _ _ _ EL Hr)
        as (t0 & ev & -> & Hev & Ht0).
      exists (AgentRun (_build_prompt question history limit)
                       (Returned a0) :: t0), ev.
      now repeat split.
    + intros Hr. injection Hr as ->.
      exists [], (AgentRun (_build_prompt question history limit)
                           (Raised e)).
      now repeat split.
  - start_cases; unfold trace_of, result_of; cbn [fst snd];
      [|discriminate].
    intros Hret. cbn in Hret.
    destruct (Z.le_gt_cases 0 mr) as [Hmr|Hmr].
    + eapply loop_returns; [|exact EL|exact Hret]. lia.
    + rewrite loop_exit in EL by lia. injection EL as <- <- <-.
      now eexists.
Qed.

(** X3. What [answer] returns is a text the agent generated during this
    call, and the most recent one. *)
Theorem X3_returns_most_recent_generation
    (thr : number) (mr limit : Z) (history : option (list (string * string)))
    (w : World) (x : string) :
  result_of (answer_ limit history thr mr w) = Some (Returned x) ->
  In x (generated (trace_of (answer_ limit history thr mr w)))
  /\ last (generated (trace_of (answer_ limit history thr mr w))) "" = x.
Proof.
  start_cases; unfold trace_of, result_of; cbn [fst snd]; [|discriminate].
  intros ->. apply loop_result in EL. cbn [generated].
  assert (Hl : last (a0 :: generated tr) "" = x)
    by (rewrite last_cons; now symmetry).
  split; [|exact Hl]. rewrite <- Hl. apply last_in. discriminate.
Qed.

(** X4. Every evaluation of a call is about the question the call was
    given: retries do not change what the evaluator is asked. *)
Theorem X4_evaluations_keep_the_question
    (thr : number) (mr limit : Z) (history : option (list (string * string)))
    (w : World) :
  Forall (about_question question)
         (trace_of (answer_ limit history thr mr w)).
Proof.
  start_cases; unfold trace_of; cbn [fst].
  - constructor; [exact I|]. now apply loop_about_question in EL.
  - now repeat constructor.
Qed.

(** X5. When [answer] returns (with [max_reflections >= 0]), every verdict
    but the last failed the loop's test (score below the threshold, or
    "ambiguous" in the reason) and was followed by one retry; the last
    verdict passes the test unless all [max_reflections + 1] generation
    calls were made. *)
Theorem X5_returned_answer_was_accepted_or_budget_spent
    (thr : number) (mr limit : Z) (history : option (list (string * string)))
    (w : World) (x : string) :
  (0 <= mr)%Z ->
  result_of (answer_ limit history thr mr w) = Some (Returned x) ->
  exists ms m,
    verdicts (trace_of (answer_ limit history thr mr w)) = (ms ++ [m])%list
    /\ Forall (fun m' => ~ passes_test thr m') ms
    /\ gen_calls (trace_of (answer_ limit history thr mr w))
       = S (List.length ms)
    /\ (passes_test thr m
        \/ Z.of_nat (gen_calls (trace_of (answer_ limit history thr mr w)))
           = (mr + 1)%Z).
Proof.
  intros Hmr.
  start_cases; unfold trace_of, result_of; cbn [fst snd]; [|discriminate].
  intros ->.
  apply loop_verdicts in EL as (ms & m & Hv & Hms & Hg & Hend);
    [|exact Hmr|lia].
  exists ms, m. cbn. fold (gen_calls tr). rewrite Hg.
  repeat split; [exact Hv|exact Hms|].
  destruct Hend as [Hacc|Hex]; [now left|right]. lia.
Qed.

(** X6. The calls of [answer] take turns, starting with a generation call:
    no two generation calls follow each other without an evaluation in
    between, and no two evaluations without a generation call. *)
Theorem X6_calls_alternate
    (thr : number) (mr limit : Z) (history : option (list (string * string)))
    (w : World) :
  calls_alternate true (trace_of (answer_ limit history thr mr w)) = true.
Proof.
  start_cases; unfold trace_of; cbn; [|reflexivity].
  now apply loop_alternates in EL.
Qed.

(** X7. Lowering the threshold never costs generation calls: from the same
    world, with the same arguments otherwise, the call with the lower
    threshold makes at most as many generation calls. *)
Theorem X7_lower_threshold_fewer_generations
    (thr1 thr2 : number) (mr limit : Z)
    (history : option (list (string * string))) (w : World) :
  num_leb thr1 thr2 = true ->
  (gen_calls (trace_of (answer_ limit history thr1 mr w))
   <= gen_calls (trace_of (answer_ limit history thr2 mr w)))%nat.
Proof.
  intros Hthr. rewrite !answer_unfold. cbv zeta.
  destruct (run _ _ _ _) as [w1 [a0|e]]; [|cbn; lia].
  pose proof (loop_threshold_mono compute_metrics self question thr1 thr2
                mr (Z.to_nat (mr + 1)) Hthr 0%Z a0 w1) as H.
  destruct (loop thr1 _ _ _ _ _) as [[tr1 w2] r1].
  destruct (loop thr2 _ _ _ _ _) as [[tr2 w3] r2].
  unfold trace_of, gen_calls in *. cbn in *. lia.
Qed.

(** X8. A smaller budget never costs generation calls: from the same
    world, the call with the smaller [max_reflections] makes at most as
    many generation calls. *)
Theorem X8_smaller_budget_fewer_generations
    (thr : number) (mr1 mr2 limit : Z)
    (history : option (list (string * string))) (w : World) :
  (mr1 <= mr2)%Z ->
  (gen_calls (trace_of (answer_ limit history thr mr1 w))
   <= gen_calls (trace_of (answer_ limit history thr mr2 w)))%nat.
Proof.
  intros Hmr. rewrite !answer_unfold. cbv zeta.
  destruct (run _ _ _ _) as [w1 [a0|e]]; [|cbn; lia].
  destruct (Z.le_gt_cases 0 mr2) as [H2|H2].
  - pose proof (loop_budget_mono compute_metrics self question thr mr1 mr2
                  (Z.to_nat (mr1 + 1)) Hmr (Z.to_nat (mr2 + 1)) 0%Z a0 w1
                  ltac:(lia)) as H.
    destruct (loop thr mr1 _ _ _ _) as [[tr1 w2] r1].
    destruct (loop thr mr2 _ _ _ _) as [[tr2 w3] r2].
    unfold trace_of, gen_calls in *. cbn in *. lia.
  - rewrite !loop_exit by lia. cbn. lia.
Qed.

(** X9. A call that did not print the notice that the attempts are used up
    would have gone the very same way under any larger budget: same calls,
    same prints, same final world, same result. *)
Theorem X9_unspent_budget_is_irrelevant
    (thr : number) (mr1 mr2 limit : Z)
    (history : option (list (string * string))) (w : World) :
  (0 <= mr1)%Z ->
  (mr1 <= mr2)%Z ->
  ~ In max_reached_notice
       (notices (trace_of (answer_ limit history thr mr1 w))) ->
  answer_ limit history thr mr1 w = answer_ limit history thr mr2 w.
Proof.
  intros H1 H12. rewrite !answer_unfold. cbv zeta.
  destruct (run _ _ _ _) as [w1 [a0|e]]; [|reflexivity].
  intros Hno.
  rewrite <- (loop_budget_stable compute_metrics self question thr mr1 mr2
                (Z.to_nat (mr1 + 1)) H12 (Z.to_nat (mr2 + 1)) 0%Z a0 w1);
    try lia; [reflexivity|].
  intros Hin. apply Hno.
  now destruct (loop thr mr1 _ _ _ _) as [[tr1 w2] r1].
Qed.

(** X10. The diagnostics follow the calls: the verdicts printed on the
    "[metrics]" lines are the verdicts the evaluator returned, in order;
    the retry notice is printed once for each generation call after the
    first; and the notice that the attempts are used up is printed at most
    once, after all of them. *)
Theorem X10_diagnostics_follow_the_calls
    (thr : number) (mr limit : Z) (history : option (list (string * string)))
    (w : World) :
  printed_metrics (trace_of (answer_ limit history thr mr w))
  = verdicts (trace_of (answer_ limit history thr mr w))
  /\ exists tail,
       notices (trace_of (answer_ limit history thr mr w))
       = (repeat retry_notice
            (gen_calls (trace_of (answer_ limit history thr mr w)) - 1)
          ++ tail)%list
       /\ (tail = [] \/ tail = [max_reached_notice]).
Proof.
  start_cases; unfold trace_of; cbn [fst].
  - apply loop_diagnostics in EL as (Hp & tail & Hn & Ht).
    split; [exact Hp|]. exists tail. split; [|exact Ht].
    cbn. fold (gen_calls tr). now rewrite Nat.sub_0_r.
  - split; [reflexivity|]. exists []. split; [reflexivity|now left].
Qed.

End AnswerMore.

(** * Further properties of the history rendering *)

Section HistoryMore.

Lemma join_cons (sep x y : string) (l : list string) :
  join sep (x :: y :: l) = x ++ sep ++ join sep (y :: l).
Proof. reflexivity. Qed.

Lemma join_app (sep : string) (l1 l2 : list string) :
  l1 <> [] -> l2 <> [] ->
  join sep (l1 ++ l2) = join sep l1 ++ sep ++ join sep l2.
Proof.
  intros H1 H2. induction l1 as [|x l1 IH]; [congruence|].
  destruct l1 as [|y l1].
  - destruct l2 as [|z l2]; [congruence|]. reflexivity.
  - change ((x :: y :: l1) ++ l2)%list with (x :: y :: (l1 ++ l2))%list.
    rewrite !join_cons.
    change (y :: (l1 ++ l2))%list with ((y :: l1) ++ l2)%list.
    rewrite IH by discriminate. now rewrite !append_assoc.
Qed.

(** The rendering of a history that has turns. *)
Lemma format_turns (h : list (string * string)) :
  h <> [] ->
  _format_history (Some h) = join NL (flat_map turn_lines h).
Proof.
  destruct h as [|t h]; [congruence|]. intros _.
  unfold _format_history. now rewrite fold_append_turn.
Qed.

Lemma turn_lines_nonempty (h : list (string * string)) :
  h <> [] -> flat_map turn_lines h <> [].
Proof. destruct h as [|[q a] h]; [congruence|discriminate]. Qed.

Lemma turn_lines_no_newline (h : list (string * string)) :
  newline_free h = true ->
  forallb no_newline (flat_map turn_lines h) = true.
Proof.
  unfold newline_free. induction h as [|[q a] h IH]; [reflexivity|].
  intros H. simpl in H. apply andb_true_iff in H as [Hqa Hh].
  apply andb_true_iff in Hqa as [Hq Ha].
  change (forallb no_newline
            (turn_lines (q, a) ++ flat_map turn_lines h)%list = true).
  rewrite forallb_app, (IH Hh). unfold turn_lines. cbn [fst snd forallb].
  now rewrite !no_newline_app, Hq, Ha.
Qed.

Lemma turn_lines_inj (h1 : list (string * string)) :
  forall h2,
    flat_map turn_lines h1 = flat_map turn_lines h2 -> h1 = h2.
Proof.
  induction h1 as [|[q1 a1] h1 IH]; intros [|[q2 a2] h2] H;
    try discriminate; [reflexivity|].
  cbn in H. injection H as Hq Ha H.
  now rewrite (IH h2 H), Hq, Ha.
Qed.

(** X11. The placeholder is rendered for an absent or empty history and
    for no other: a history with at least one turn never renders as
    "(no prior turns)", whatever its turns hold. *)
Theorem X11_placeholder_only_without_turns
    (history : option (list (string * string))) :
  _format_history history = placeholder
  <-> history = None \/ history = Some [].
Proof.
  split.
  - destruct history as [[|[q a] h]|]; [now right| |now left].
    rewrite format_turns by discriminate. discriminate.
  - now intros [-> | ->].
Qed.

(** X12. Rendering follows concatenation: the rendering of two histories
    put one after the other, both with turns, is their two renderings with
    one newline between them. *)
Theorem X12_rendering_of_concatenation (h1 h2 : list (string * string)) :
  h1 <> [] -> h2 <> [] ->
  _format_history (Some (h1 ++ h2)%list)
  = _format_history (Some h1) ++ NL ++ _format_history (Some h2).
Proof.
  intros H1 H2.
  rewrite !format_turns; try assumption.
  - rewrite flat_map_app.
    apply join_app; now apply turn_lines_nonempty.
  - destruct h1; [congruence|discriminate].
Qed.

(** X13. On histories whose questions and answers hold no newline the
    rendering loses nothing: two such histories with the same rendering are
    the same history. *)
Theorem X13_rendering_injective_without_newlines
    (h1 h2 : list (string * string)) :
  newline_free h1 = true ->
  newline_free h2 = true ->
  _format_history (Some h1) = _format_history (Some h2) ->
  h1 = h2.
Proof.
  intros N1 N2 E.
  destruct h1 as [|t1 h1], h2 as [|t2 h2]; [reflexivity| | |].
  - rewrite (format_turns (t2 :: h2)) in E by discriminate.
    destruct t2. discriminate.
  - rewrite (format_turns (t1 :: h1)) in E by discriminate.
    destruct t1. discriminate.
  - rewrite !format_turns in E by discriminate.
    apply (f_equal split_lines) in E.
    rewrite !split_lines_join in E;
      try (apply turn_lines_no_newline; assumption);
      try (apply turn_lines_nonempty; discriminate).
    now apply turn_lines_inj.
Qed.

(** X14. Turn texts are not escaped: a question that holds a newline, an
    "Assistant: " line, a newline and a "User: " line renders exactly as
    two separate turns do, so different histories can give the same
    prompt. *)
Theorem X14_newlines_forge_turns
    (q1 a1 q2 a2 : string) (rest : list (string * string)) :
  _format_history
    (Some ((q1 ++ NL ++ "Assistant: " ++ a1 ++ NL ++ "User: " ++ q2, a2)
           :: rest))
  = _format_history (Some ((q1, a1) :: (q2, a2) :: rest)).
Proof.
  rewrite !format_turns by discriminate.
  cbn [flat_map turn_lines fst snd app].
  rewrite !join_cons. now rewrite !append_assoc.
Qed.

End HistoryMore.

(** * A consequence of matching on the bare word *)

Section WordMatch.

Context {World Deps : Type}.
Variable compute_metrics :
  string -> string -> World -> World * outcome Metrics.
Variable self : AgentRunner World Deps.
Variable question : string.
Variable reflection_threshold : number.
Variable max_reflections : Z.

Local Abbreviation loop :=
  (reflection_loop compute_metrics self question reflection_threshold
                   max_reflections).

(** A text that contains a longer word contains the part of it. *)
Lemma substring_ci_part (pre u post s : string) :
  substring_ci (pre ++ u ++ post) s -> substring_ci u s.
Proof.
  intros (p & mid & q & -> & H).
  rewrite !lower_app in H.
  apply lower_split in H as (m1 & m23 & -> & H1 & H).
  apply lower_split in H as (m2 & m3 & -> & H2 & H3).
  exists (p ++ m1), m2, (m3 ++ q). split; [|exact H2].
  now rewrite !append_assoc.
Qed.

(** X15. The test looks for the letters "ambiguous" anywhere in the reason,
    so a reason that says "unambiguous" (in any case of letters) fails the
    test too: whatever the score, the answer is not accepted, and while
    attempts remain the loop goes on to a retry. *)
Theorem X15_unambiguous_reason_is_rejected
    (fuel : nat) (attempt : Z) (a : string) (w w1 : World) (m : Metrics) :
  (attempt < max_reflections)%Z ->
  compute_metrics question a w = (w1, Returned m) ->
  substring_ci "unambiguous" (llm_judge_reason m) ->
  ambiguous m = true
  /\ exists tr',
       trace_of (loop (S fuel) attempt a w) =
       ComputeMetrics question a (Returned m)
       :: Print (MetricsLine m)
       :: Print (Line retry_notice)
       :: AgentRun (reflection_prompt a)
            (snd (run (agent self) (reflection_prompt a) (deps self) w1))
       :: tr'.
Proof.
  intros Hlt Hm Hun.
  assert (Hamb : substring_ci "ambiguous" (llm_judge_reason m))
    by (apply (substring_ci_part "un" "ambiguous" ""); exact Hun).
  split.
  - unfold ambiguous. now apply (lowered_in_iff "ambiguous").
  - apply loop_retry; [exact Hlt|exact Hm|].
    intros [_ Hclean]. now apply Hclean.
Qed.

End WordMatch.

(** * The further properties at work on concrete collaborators *)

Section MoreInstances.

Import Demo.

Lemma X1_witness :
  answer (judge never_satisfied) (mkRunner parrot tt) france 5 None
         (8 # 10) (-1) 0%nat
  = ([AgentRun (_build_prompt france None 5) (Returned "Paris")],
     1%nat, Some (Returned "Paris")).
Proof.
  apply (X1_negative_budget_skips_evaluation (judge never_satisfied)
           (mkRunner parrot tt) france (8 # 10) (-1) 5 None 0%nat).
  lia.
Defined.

Lemma X2_witness :
  exists tr0 ev,
    trace_of (answer (judge never_satisfied) (mkRunner broken tt) france 5
                     None (8 # 10) 2 0%nat) = (tr0 ++ [ev])%list
    /\ raised_with (UpstreamError "connection reset") ev
    /\ forallb call_returned tr0 = true.
Proof.
  apply (X2_failure_ends_the_call (judge never_satisfied)
           (mkRunner broken tt) france (8 # 10) 2 5 None 0%nat).
  reflexivity.
Defined.

Lemma X3_witness :
  In "Paris" (generated (trace_of
      (answer (judge likes_paris) (mkRunner lyon_then_paris tt) france 5
              None (8 # 10) 2 0%nat)))
  /\ last (generated (trace_of
        (answer (judge likes_paris) (mkRunner lyon_then_paris tt) france 5
                None (8 # 10) 2 0%nat))) "" = "Paris".
Proof.
  apply (X3_returns_most_recent_generation (judge likes_paris)
           (mkRunner lyon_then_paris tt) france (8 # 10) 2 5 None 0%nat).
  reflexivity.
Defined.

Lemma X5_witness :
  exists ms m,
    verdicts (trace_of
      (answer (judge likes_paris) (mkRunner lyon_then_paris tt) france 5
              None (8 # 10) 2 0%nat)) = (ms ++ [m])%list
    /\ Forall (fun m' => ~ passes_test (8 # 10) m') ms
    /\ gen_calls (trace_of
         (answer (judge likes_paris) (mkRunner lyon_then_paris tt) france 5
                 None (8 # 10) 2 0%nat)) = S (List.length ms)
    /\ (passes_test (8 # 10) m
        \/ Z.of_nat (gen_calls (trace_of
              (answer (judge likes_paris) (mkRunner lyon_then_paris tt)
                      france 5 None (8 # 10) 2 0%nat))) = (2 + 1)%Z).
Proof.
  apply (X5_returned_answer_was_accepted_or_budget_spent
           (judge likes_paris) (mkRunner lyon_then_paris tt) france
           (8 # 10) 2 5 None 0%nat "Paris").
  - lia.
  - reflexivity.
Defined.

Lemma X7_witness :
  (gen_calls (trace_of
      (answer (judge likes_paris) (mkRunner lyon_then_paris tt) france 5
              None (5 # 10) 2 0%nat))
   <= gen_calls (trace_of
        (answer (judge likes_paris) (mkRunner lyon_then_paris tt) france 5
                None (8 # 10) 2 0%nat)))%nat.
Proof.
  apply (X7_lower_threshold_fewer_generations (judge likes_paris)
           (mkRunner lyon_then_paris tt) france (5 # 10) (8 # 10) 2 5 None
           0%nat).
  reflexivity.
Defined.

Lemma X8_witness :
  (gen_calls (trace_of
      (answer (judge never_satisfied) (mkRunner parrot tt) france 5
              None (8 # 10) 0 0%nat))
   <= gen_calls (trace_of
        (answer (judge never_satisfied) (mkRunner parrot tt) france 5
                None (8 # 10) 2 0%nat)))%nat.
Proof.
  apply (X8_smaller_budget_fewer_generations (judge never_satisfied)
           (mkRunner parrot tt) france (8 # 10) 0 2 5 None 0%nat).
  lia.
Defined.

Lemma X9_witness :
  answer (judge likes_paris) (mkRunner lyon_then_paris tt) france 5 None
         (8 # 10) 1 0%nat
  = answer (judge likes_paris) (mkRunner lyon_then_paris tt) france 5 None
           (8 # 10) 7 0%nat.
Proof.
  apply (X9_unspent_budget_is_irrelevant (judge likes_paris)
           (mkRunner lyon_then_paris tt) france (8 # 10) 1 7 5 None 0%nat).
  - lia.
  - lia.
  - vm_compute. intros [H|[]]. discriminate H.
Defined.

Lemma X12_witness :
  _format_history (Some [("Hi", "Hello"); ("Who?", "Me")])
  = _format_history (Some [("Hi", "Hello")]) ++ NL
    ++ _format_history (Some [("Who?", "Me")]).
Proof.
  apply (X12_rendering_of_concatenation [("Hi", "Hello")] [("Who?", "Me")]);
    discriminate.
Defined.

Lemma X13_witness :
  [("Hi", "Hello"); ("Who?", "Me")] = [("Hi", "Hello"); ("Who?", "Me")].
Proof.
  apply (X13_rendering_injective_without_newlines
           [("Hi", "Hello"); ("Who?", "Me")]
           [("Hi", "Hello"); ("Who?", "Me")]); reflexivity.
Defined.

Lemma X15_witness :
  ambiguous (mkMetrics 1 "Clear and Unambiguous.") = true
  /\ exists tr',
       trace_of (reflection_loop (judge praises) (mkRunner parrot tt) france
                   (8 # 10) 2 3 0 "Paris" 1%nat) =
       ComputeMetrics france "Paris"
         (Returned (mkMetrics 1 "Clear and Unambiguous."))
       :: Print (MetricsLine (mkMetrics 1 "Clear and Unambiguous."))
       :: Print (Line retry_notice)
       :: AgentRun (reflection_prompt "Paris") (Returned "Paris")
       :: tr'.
Proof.
  apply (X15_unambiguous_reason_is_rejected (judge praises)
           (mkRunner parrot tt) france (8 # 10) 2 2 0 "Paris" 1%nat 1%nat
           (mkMetrics 1 "Clear and Unambiguous.")).
  - lia.
  - reflexivity.
  - exists "Clear and ", "Unambiguous", ".". split; reflexivity.
Defined.

End MoreInstances.
